(** * discord-handler: the embed builder, the reaction menu and the display
      handler of [src/handler.py], as a shallow embedding.

    The Python code is asynchronous glue over the discord.py client.  Every
    [await]ed platform call is a coroutine descriptor ([Coro]) interpreted
    over an explicit [World] (the messages of the platform, the gateway
    events still to come, a clock and the trace of calls performed).  Python
    exceptions are the [Raise] outcome of a state-and-exception monad: the
    state reached before the exception is kept, as in Python. *)

From stdpp Require Import base decidable option list strings gmap.
From Stdlib Require Import NArith ZArith Lia.

Set Default Proof Using "Type".
Open Scope string_scope.
Open Scope list_scope.

(** ** Outcomes of a Python computation *)

Inductive PyExc :=
  | KeyError | IndexError | LookupError | TypeError | ValueError
  | AttributeError | TimeoutError.

Inductive Outcome (A : Type) :=
  | Ok (a : A)
  | Raise (e : PyExc)
  | OutOfFuel.
Arguments Ok {A} a.
Arguments Raise {A} e.
Arguments OutOfFuel {A}.

Definition Py (S A : Type) : Type := S → Outcome A * S.

Definition ret {S A} (a : A) : Py S A := λ s, (Ok a, s).
Definition raise {S A} (e : PyExc) : Py S A := λ s, (Raise e, s).
Definition bind {S A B} (m : Py S A) (k : A → Py S B) : Py S B :=
  λ s, match m s with
       | (Ok a, s') => k a s'
       | (Raise e, s') => (Raise e, s')
       | (OutOfFuel, s') => (OutOfFuel, s')
       end.
Definition get {S} : Py S S := λ s, (Ok s, s).
Definition put {S} (s : S) : Py S unit := λ _, (Ok (), s).
Definition modify {S} (f : S → S) : Py S unit := λ s, (Ok (), f s).
Definition of_option {S A} (e : PyExc) (o : option A) : Py S A :=
  match o with Some a => ret a | None => raise e end.

Global Instance Py_ret {S} : MRet (Py S) := @ret S.
Global Instance Py_bind {S} : MBind (Py S) := λ A B k m, bind m k.

(** [for x in xs: body x] *)
Fixpoint for_each {S A} (xs : list A) (body : A → Py S unit) : Py S unit :=
  match xs with
  | [] => ret ()
  | x :: xs' => bind (body x) (λ _, for_each xs' body)
  end.

(** ** Python dictionaries

    A [dict] keeps its keys in insertion order; [d[k] = v] on a key that is
    present replaces the value where the key already stands. *)

Section Dict.
Context {K V : Type} `{EqDecision K}.

Definition dict : Type := list (K * V).

Fixpoint dict_get (d : dict) (k : K) : option V :=
  match d with
  | [] => None
  | (k', v) :: d' => if decide (k = k') then Some v else dict_get d' k
  end.

Fixpoint dict_set (d : dict) (k : K) (v : V) : dict :=
  match d with
  | [] => [(k, v)]
  | (k', v') :: d' =>
      if decide (k = k') then (k', v) :: d' else (k', v') :: dict_set d' k v
  end.

Definition dict_keys (d : dict) : list K := d.*1.

Definition dict_mem (d : dict) (k : K) : bool := bool_decide (k ∈ dict_keys d).

(** [d[k]], which raises [KeyError] on an absent key *)
Definition subscript {S} (d : dict) (k : K) : Py S V :=
  of_option KeyError (dict_get d k).
End Dict.
Arguments dict : clear implicits.

(** ** Values of the platform *)

Definition User := nat.
Definition Channel := nat.
Definition MsgId := nat.
Definition Emoji := string.
Definition Colour := Z.

(** The elements of a field tuple of a flow. *)
Inductive PyVal :=
  | VNone
  | VBool (b : bool)
  | VInt (z : Z)
  | VStr (s : string).

Record EmbedField := { name : PyVal; value : PyVal; inline : PyVal }.

Record Embed := {
  title : string;
  colour : Colour;
  fields : list EmbedField;
  footer_text : string;
  footer_icon_url : option string;
  thumbnail_url : option string;
  image_url : option string
}.

Record Message := {
  m_id : MsgId;
  author : User;
  channel : Channel;
  content : string
}.

Record Reaction := { emoji : Emoji; r_message : MsgId }.

Global Instance PyExc_eq_dec : EqDecision PyExc.
Proof. solve_decision. Defined.
Global Instance PyVal_eq_dec : EqDecision PyVal.
Proof. solve_decision. Defined.
Global Instance Reaction_eq_dec : EqDecision Reaction.
Proof. solve_decision. Defined.

(** What a call of the client library hands back to the Python code. *)
#[warnings="-register-all"] Inductive PyObj :=
  | ONone
  | OEmbed (e : Embed)
  | OMessage (m : Message)
  | OReaction (r : Reaction)
  | OUser (u : User)
  | OTuple (items : list PyObj).

(** [a, b = v]: only a tuple can be unpacked here; an [Embed], a [Message]
    and [None] are not iterable ([TypeError]), and a tuple of another length
    is a [ValueError]. *)
Definition unpack2 {S} (v : PyObj) : Py S (PyObj * PyObj) :=
  match v with
  | OTuple [a; b] => ret (a, b)
  | OTuple _ => raise ValueError
  | _ => raise TypeError
  end.

(** ** The platform: messages, gateway events, clock, trace *)

Inductive Event :=
  | on_reaction_add (r : Reaction) (u : User)
  | on_message (m : Message).

Definition event_name (ev : Event) : string :=
  match ev with
  | on_reaction_add _ _ => "reaction_add"
  | on_message _ => "message"
  end.

(** What [wait_for] returns for an event: the arguments of the event, a tuple
    when there are several. *)
Definition event_args (ev : Event) : PyObj :=
  match ev with
  | on_reaction_add r u => OTuple [OReaction r; OUser u]
  | on_message m => OMessage m
  end.

(** The coroutines of the client library that the handler builds.  Calling
    one of these methods only builds the coroutine; it runs when awaited. *)
Inductive Coro :=
  | channel_send (c : Channel) (embed : Embed)
  | message_edit (m : MsgId) (embed : Embed)
  | message_add_reaction (m : MsgId) (e : Emoji)
  | reaction_remove (r : Reaction) (u : User)
  | message_clear_reactions (m : MsgId)
  | asyncio_sleep (seconds : N).

(** What the platform shows for one message. *)
Record Shown := {
  shown_embed : option Embed;
  shown_reactions : list (Emoji * User)
}.

(** How the client's [wait_for] signals that its timeout was reached.
    discord.py raises [asyncio.TimeoutError]; the handler's tests of the
    result against [None] are for a client that returns [None] instead. *)
Inductive TimeoutSignal := RaisesTimeoutError | ReturnsNone.

Record Bot := {
  bot_user : User;
  on_timeout : TimeoutSignal
}.

Record Context := { ctx_message : Message }.

Record World := {
  clock : N;                        (* seconds *)
  inbox : list (N * Event);         (* events to come, by arrival time *)
  board : gmap MsgId Shown;
  next_id : MsgId;
  trace : list Coro;                (* coroutines awaited, oldest first *)
  unawaited : list Coro             (* coroutines built and dropped *)
}.

Definition set_board (f : gmap MsgId Shown → gmap MsgId Shown) (w : World) : World :=
  {| clock := clock w; inbox := inbox w; board := f (board w);
     next_id := next_id w; trace := trace w; unawaited := unawaited w |}.

Definition traced (c : Coro) (w : World) : World :=
  {| clock := clock w; inbox := inbox w; board := board w;
     next_id := next_id w; trace := trace w ++ [c]; unawaited := unawaited w |}.

Definition dropped (c : Coro) (w : World) : World :=
  {| clock := clock w; inbox := inbox w; board := board w;
     next_id := next_id w; trace := trace w; unawaited := unawaited w ++ [c] |}.

Definition set_embed (e : Embed) (m : Shown) : Shown :=
  {| shown_embed := Some e; shown_reactions := shown_reactions m |}.

Definition set_reactions (f : list (Emoji * User) → list (Emoji * User)) (m : Shown) : Shown :=
  {| shown_embed := shown_embed m; shown_reactions := f (shown_reactions m) |}.

Definition remove_one (x : Emoji * User) (l : list (Emoji * User)) : list (Emoji * User) :=
  filter (λ y, y ≠ x) l.

(** The effect of a coroutine on the platform once it runs, and its result.
    Failures of the platform itself (permissions, deleted messages) are not
    part of the model: a call on a message the platform does not show
    changes nothing. *)
Definition perform (b : Bot) (c : Coro) (w : World) : PyObj * World :=
  match c with
  | channel_send ch embed =>
      let m := {| m_id := next_id w; author := bot_user b; channel := ch; content := "" |} in
      (OMessage m,
       {| clock := clock w; inbox := inbox w;
          board := <[next_id w := {| shown_embed := Some embed; shown_reactions := [] |}]> (board w);
          next_id := S (next_id w); trace := trace w; unawaited := unawaited w |})
  | message_edit m embed => (ONone, set_board (alter (set_embed embed) m) w)
  | message_add_reaction m e =>
      (ONone, set_board (alter (set_reactions (λ l, l ++ [(e, bot_user b)])) m) w)
  | reaction_remove r u =>
      (ONone, set_board (alter (set_reactions (remove_one (emoji r, u))) (r_message r)) w)
  | message_clear_reactions m => (ONone, set_board (alter (set_reactions (λ _, [])) m) w)
  | asyncio_sleep s =>
      (ONone,
       {| clock := (clock w + s)%N; inbox := inbox w; board := board w;
          next_id := next_id w; trace := trace w; unawaited := unawaited w |})
  end.

(** [await c] *)
Definition await (b : Bot) (c : Coro) : Py World PyObj :=
  λ w, let '(r, w') := perform b c (traced c w) in (Ok r, w').

(** A coroutine that is built and never awaited does not run. *)
Definition discard (c : Coro) : Py World unit :=
  λ w, (Ok (), dropped c w).

(** The first event of the inbox that arrives while the listener is
    registered (after [now], and no later than [deadline]), has the awaited
    name and passes [check].  An event that arrives at the instant [now]
    itself, as one dispatched together with the event just handled does,
    comes before the listener is registered and is lost like the earlier
    ones; an event that arrives at the instant of the deadline is still
    received; events that [check] refuses are dispatched without waking the
    listener. *)
Fixpoint next_event (now deadline : N) (ev_name : string) (check : Event → bool)
    (pending : list (N * Event)) : option (N * Event * list (N * Event)) :=
  match pending with
  | [] => None
  | (t, ev) :: rest =>
      if (deadline <? t)%N then None
      else if (now <? t)%N && bool_decide (event_name ev = ev_name) && check ev
           then Some (t, ev, rest)
           else next_event now deadline ev_name check rest
  end.

(** [await bot.wait_for(ev_name, timeout=timeout, check=check)] *)
Definition wait_for (b : Bot) (ev_name : string) (timeout : N) (check : Event → bool)
    : Py World PyObj :=
  λ w,
    match next_event (clock w) (clock w + timeout) ev_name check (inbox w) with
    | Some (t, ev, rest) =>
        (Ok (event_args ev),
         {| clock := t; inbox := rest; board := board w;
            next_id := next_id w; trace := trace w; unawaited := unawaited w |})
    | None =>
        let w' := {| clock := (clock w + timeout)%N; inbox := inbox w; board := board w;
                     next_id := next_id w; trace := trace w; unawaited := unawaited w |} in
        match on_timeout b with
        | RaisesTimeoutError => (Raise TimeoutError, w')
        | ReturnsNone => (Ok ONone, w')
        end
    end.

(** ** class Menu *)

Module Menu.

(** The functions a reaction can be bound to: [Menu.change_page], or a
    function of the caller, known by a number. *)
Inductive Func := Menu_change_page | user_function (id : nat).

(** The members of the argument tuple stored with a function. *)
Inductive Arg := the_menu | str_arg (s : string) | obj_arg (o : PyObj).

Record t := {
  pages : dict string Embed;
  ctx : Context;
  bot : Bot;
  reactions : dict Emoji (Func * list Arg);
  message : option Message;
  exit : bool
}.

(** A method runs over the menu object and the platform. *)
Record Session := { self : t; world : World }.

Definition lift {A} (m : Py World A) : Py Session A :=
  λ s, let '(r, w) := m (world s) in (r, {| self := self s; world := w |}).

Definition update (f : t → t) : Py Session unit :=
  modify (λ s, {| self := f (self s); world := world s |}).

Definition set_reaction (e : Emoji) (b : Func * list Arg) (m : t) : t :=
  {| pages := pages m; ctx := ctx m; bot := bot m;
     reactions := dict_set (reactions m) e b;
     message := message m; exit := exit m |}.

Definition set_message (msg : Message) (m : t) : t :=
  {| pages := pages m; ctx := ctx m; bot := bot m; reactions := reactions m;
     message := Some msg; exit := exit m |}.

Definition set_exit (m : t) : t :=
  {| pages := pages m; ctx := ctx m; bot := bot m; reactions := reactions m;
     message := message m; exit := true |}.

Definition init (pages : dict string Embed) (ctx : Context) (bot : Bot) : t :=
  {| pages := pages; ctx := ctx; bot := bot; reactions := [];
     message := None; exit := false |}.

Definition attach_function (reaction : Emoji) (function : Func) (args : list Arg)
    : Py Session unit :=
  update (set_reaction reaction (function, args)).

Definition verify (m : t) (reaction : Reaction) (user : User) : bool :=
  bool_decide (user = author (ctx_message (ctx m))).

(** [verify] as the [check] of [wait_for]. *)
Definition check (m : t) (ev : Event) : bool :=
  match ev with
  | on_reaction_add reaction user => verify m reaction user
  | on_message _ => false
  end.

Definition clear_reactions : Py Session unit :=
  s ← get;
  lift (discard (message_clear_reactions (m_id (ctx_message (ctx (self s)))))).

(** [self.__message.edit] is looked up before [self.__pages[page]]. *)
Definition change_page (page : Arg) : Py Session unit :=
  s ← get;
  match message (self s) with
  | None => raise AttributeError
  | Some live =>
      embed ← match page with
              | str_arg key => subscript (pages (self s)) key
              | _ => raise KeyError
              end;
      lift (await (bot (self s)) (message_edit (m_id live) embed));;
      ret ()
  end.

Section Callbacks.
(** [utils.emojis.PAGES[i]], a table that is not part of this file, and
    the functions of the caller that [attach_function] receives. *)
Variable PAGES : nat → option Emoji.
Variable user_call : nat → list Arg → Py Session unit.

Definition attach_numbers : Py Session unit :=
  s ← get;
  for_each (zip (dict_keys (pages (self s))) (seq 1 9))
    (λ '(page, i),
       e ← of_option LookupError (PAGES i);
       update (set_reaction e (Menu_change_page, [the_menu; str_arg page]))).

Definition attach_reactions (msg : Message) : Py Session unit :=
  s ← get;
  for_each (dict_keys (reactions (self s)))
    (λ reaction,
       lift (await (bot (self s)) (message_add_reaction (m_id msg) reaction));;
       ret ());;
  lift (await (bot (self s)) (asyncio_sleep 2));;
  ret ().

(** [await func] on the unpacked argument tuple.  [Menu.change_page] takes
    the menu and a page: a tuple of another length does not fit its
    parameters ([TypeError]), and a first member that is not the menu has no
    attribute [__message] ([AttributeError]). *)
Definition call (func : Func) (args : list Arg) : Py Session unit :=
  match func, args with
  | Menu_change_page, [the_menu; page] => change_page page
  | Menu_change_page, [_; _] => raise AttributeError
  | Menu_change_page, _ => raise TypeError
  | user_function id, _ => user_call id args
  end.

(** One turn of [while not self.__exit], where [again] is the loop. *)
Definition turn (again : Py Session unit) : Py Session unit :=
  s ← get;
  if exit (self s) then ret ()
  else
    got ← lift (wait_for (bot (self s)) "reaction_add" 60 (check (self s)));
    '(reaction, user) ← unpack2 got;
    match reaction with
    | ONone => ret ()
    | OReaction r =>
        s1 ← get;
        (if dict_mem (reactions (self s1)) (emoji r)
         then '(func, args) ← subscript (reactions (self s1)) (emoji r);
              call func args
         else ret ());;
        match user with
        | OUser u => lift (await (bot (self s)) (reaction_remove r u));; again
        | _ => raise AttributeError
        end
    | _ => raise AttributeError
    end.

Fixpoint loop (fuel : nat) : Py Session unit :=
  match fuel with
  | O => λ s, (OutOfFuel, s)
  | S fuel' => turn (loop fuel')
  end.

Definition deploy_menu (fuel : nat) : Py Session unit :=
  s ← get;
  embed ← subscript (pages (self s)) "MAIN";
  sent ← lift (await (bot (self s)) (channel_send (channel (ctx_message (ctx (self s)))) embed));
  match sent with
  | OMessage live =>
      update (set_message live);;
      s1 ← get;
      for_each (dict_keys (reactions (self s1)))
        (λ i, lift (await (bot (self s)) (message_add_reaction (m_id live) i));; ret ());;
      loop fuel
  | _ => raise AttributeError
  end.
End Callbacks.

End Menu.

(** ** The flows of the page source *)

Module Flow.
(** What [pages[flow_type](player)] returns. A field is a tuple
    [(name, value)] or [(name, value, inline)]. *)
Record t := {
  title : string;
  colour : string;
  fields : list (list PyVal);
  footer_text : string;
  footer_image : option string;
  thumbnail : option string;
  image : option string
}.
End Flow.

(** ** class Handler *)

Module Handler.

(** [page.pointer]: the next flow of a menu and the pointer after it. *)
#[warnings="-register-all"] Inductive Pointer := Ptr (flow : string) (pointer : option Pointer).

Section WithPlayer.
Variable Player : Type.
(** [utils.colours.get_colour], which is not part of this file; [None]
    stands for an unknown colour name. *)
Variable get_colour : string → option Colour.

(** An entry of [pages]: it is called on the player and carries the
    pointer of its menu. *)
Record Page := {
  build : Player → Flow.t;
  pointer : option Pointer
}.

Record t := {
  ctx : Context;
  bot : Bot;
  player : Player;
  pages : dict string Page;
  message : option Message
}.

Record Session := { self : t; world : World }.

Definition lift {A} (m : Py World A) : Py Session A :=
  λ s, let '(r, w) := m (world s) in (r, {| self := self s; world := w |}).

Definition set_message (msg : Message) (h : t) : t :=
  {| ctx := ctx h; bot := bot h; player := player h; pages := pages h;
     message := Some msg |}.

Definition init (ctx : Context) (bot : Bot) (pages : dict string Page) (player : Player) : t :=
  {| ctx := ctx; bot := bot; player := player; pages := pages; message := None |}.

(** [field[i]] *)
Definition item {S} (field : list PyVal) (i : nat) : Py S PyVal :=
  of_option IndexError (field !! i).

Definition add_field (embed : Embed) (n v i : PyVal) : Embed :=
  {| title := title embed; colour := colour embed;
     fields := fields embed ++ [{| name := n; value := v; inline := i |}];
     footer_text := footer_text embed; footer_icon_url := footer_icon_url embed;
     thumbnail_url := thumbnail_url embed; image_url := image_url embed |}.

(** [for field in flow.fields: ...] *)
Fixpoint add_fields {S} (fs : list (list PyVal)) (embed : Embed) : Py S Embed :=
  match fs with
  | [] => ret embed
  | field :: rest =>
      if decide (length field = 2)
      then n ← item field 0; v ← item field 1;
           add_fields rest (add_field embed n v (VBool true))
      else n ← item field 0; v ← item field 1; i ← item field 2;
           add_fields rest (add_field embed n v i)
  end.

Definition retrieve_embed (flow_type : string) : Py Session Embed :=
  s ← get;
  page ← subscript (pages (self s)) flow_type;
  let flow := build page (player (self s)) in
  resolved ← of_option LookupError (get_colour (Flow.colour flow));
  embed ← add_fields (Flow.fields flow)
            {| title := Flow.title flow; colour := resolved; fields := [];
               footer_text := ""; footer_icon_url := None;
               thumbnail_url := None; image_url := None |};
  ret {| title := title embed; colour := colour embed; fields := fields embed;
         footer_text := Flow.footer_text flow;
         footer_icon_url := Flow.footer_image flow;
         thumbnail_url := Flow.thumbnail flow;
         image_url := Flow.image flow |}.

(** [channel.send] and [ctx.send] return the message they post. *)
Definition as_message {S} (o : PyObj) : Py S Message :=
  match o with OMessage m => ret m | _ => raise TypeError end.

(** The pages of a [Menu] are embeds. *)
Definition as_embed {S} (o : PyObj) : Py S Embed :=
  match o with OEmbed e => ret e | _ => raise TypeError end.

Definition send (flow : string) : Py Session Message :=
  s ← get;
  embed ← retrieve_embed flow;
  sent ← lift (await (bot (self s)) (channel_send (channel (ctx_message (ctx (self s)))) embed));
  as_message sent.

Definition verify (h : t) (msg : Message) : bool :=
  bool_decide (author msg = author (ctx_message (ctx h)))
  && bool_decide (channel msg = channel (ctx_message (ctx h))).

Definition check (h : t) (ev : Event) : bool :=
  match ev with
  | on_message msg => verify h msg
  | on_reaction_add _ _ => false
  end.

(** The result is [Some content], or [None] for Python's [None]. *)
Definition get_message : Py Session (option string) :=
  s ← get;
  confirm ← lift (wait_for (bot (self s)) "message" 60 (check (self s)));
  match confirm with
  | ONone => ret None
  | OMessage msg => ret (Some (content msg))
  | _ => raise AttributeError
  end.

Definition display (flow : string) : Py Session unit :=
  s ← get;
  match message (self s) with
  | None =>
      sent ← send flow;
      modify (λ s', {| self := set_message sent (self s'); world := world s' |})
  | Some stored =>
      embed ← retrieve_embed flow;
      lift (await (bot (self s)) (message_edit (m_id stored) embed));;
      ret ()
  end.

(** [while pointer is not None: ...], from a pointer that is not [None] *)
Fixpoint follow (p : Pointer) (menu : dict string Embed) : Py Session (dict string Embed) :=
  match p with
  | Ptr flow next =>
      embed ← retrieve_embed flow;
      let menu' := dict_set menu flow embed in
      match next with
      | None => ret menu'
      | Some q => follow q menu'
      end
  end.

Definition retrieve_menu (flow_type : string) : Py Session Menu.t :=
  s ← get;
  rendered ← retrieve_embed flow_type;
  '(embed, message_type) ← unpack2 (OEmbed rendered);
  page ← subscript (pages (self s)) flow_type;
  main ← as_embed embed;
  menu ← match pointer page with
         | None => ret [("MAIN", main)]
         | Some p => follow p [("MAIN", main)]
         end;
  ret (Menu.init menu (ctx (self s)) (bot (self s))).
End WithPlayer.

End Handler.

(** * Statements and sample inputs *)

(** A computation that leaves the state as it found it, whatever it returns. *)
Definition readonly {S A} (m : Py S A) : Prop := ∀ s, (m s).2 = s.

(** [ef] is what [retrieve_embed] adds for the tuple [field]. *)
Definition rendered (field : list PyVal) (ef : EmbedField) : Prop :=
  field !! 0 = Some (name ef) ∧ field !! 1 = Some (value ef) ∧
  if decide (length field = 2) then inline ef = VBool true
  else field !! 2 = Some (inline ef).

(** A page source with the menu MAIN, A, B and a flow of each field shape. *)
Definition sample_colours (colour_name : string) : option Colour :=
  if decide (colour_name = "red") then Some 16711680%Z else None.

Definition sample_flow (heading : string) : Flow.t :=
  {| Flow.title := heading; Flow.colour := "red";
     Flow.fields := [[VStr "hp"; VStr "10"]; [VStr "about"; VStr "text"; VBool false]];
     Flow.footer_text := "page"; Flow.footer_image := None;
     Flow.thumbnail := None; Flow.image := None |}.

(** The render of [sample_flow heading]. *)
Definition sample_embed (heading : string) : Embed :=
  {| title := heading; colour := 16711680%Z;
     fields := [{| name := VStr "hp"; value := VStr "10"; inline := VBool true |};
                {| name := VStr "about"; value := VStr "text"; inline := VBool false |}];
     footer_text := "page"; footer_icon_url := None;
     thumbnail_url := None; image_url := None |}.

Definition sample_pages : dict string (Handler.Page unit) :=
  [("MAIN", {| Handler.build := λ _, sample_flow "Main";
               Handler.pointer := Some (Handler.Ptr "A" (Some (Handler.Ptr "B" None))) |});
   ("A", {| Handler.build := λ _, sample_flow "First"; Handler.pointer := None |});
   ("B", {| Handler.build := λ _, sample_flow "Second"; Handler.pointer := None |})].

(** The invoking command: message 1 of user 7 in channel 3. *)
Definition sample_ctx : Context :=
  {| ctx_message := {| m_id := 1; author := 7; channel := 3; content := "!menu" |} |}.

(** A client with discord.py's [wait_for], and one that returns [None]. *)
Definition discord_bot : Bot := {| bot_user := 0; on_timeout := RaisesTimeoutError |}.
Definition none_bot : Bot := {| bot_user := 0; on_timeout := ReturnsNone |}.

Definition sample_world (events : list (N * Event)) : World :=
  {| clock := 0; inbox := events;
     board := {[ 1 := {| shown_embed := None; shown_reactions := [(":+1:", 8)] |} ]};
     next_id := 2; trace := []; unawaited := [] |}.

Definition sample_handler (b : Bot) (events : list (N * Event)) : Handler.Session unit :=
  {| Handler.self := Handler.init unit sample_ctx b sample_pages ();
     Handler.world := sample_world events |}.

(** The handler and the platform after the calls [display f] for [f] in
    [flows], one after the other, whatever each call returns or raises. *)
Definition displays {Player : Type} (get_colour : string → option Colour)
    (flows : list string) (s : Handler.Session Player) : Handler.Session Player :=
  foldl (λ s' flow, (Handler.display Player get_colour flow s').2) s flows.

(** The edits that the calls [display flow], for [flow] in [flows], perform
    on the message [stored] when the handler is that of [s]: one for each
    flow that renders, in order, and nothing for a flow that does not. *)
Definition later_edits {Player : Type} (get_colour : string → option Colour)
    (s : Handler.Session Player) (stored : Message) (flows : list string) : list Coro :=
  omap (λ flow, match (Handler.retrieve_embed Player get_colour flow s).1 with
                | Ok e => Some (message_edit (m_id stored) e)
                | _ => None
                end) flows.

(** The session after a [display] that posts [embed], and after one that
    edits the message [stored] to [embed]. *)
Definition posted {Player : Type} (s : Handler.Session Player) (embed : Embed)
    : Handler.Session Player :=
  let h := Handler.self _ s in
  let c := channel_send (channel (ctx_message (Handler.ctx _ h))) embed in
  {| Handler.self :=
       Handler.set_message _
         {| m_id := next_id (Handler.world _ s); author := bot_user (Handler.bot _ h);
            channel := channel (ctx_message (Handler.ctx _ h)); content := "" |} h;
     Handler.world := (perform (Handler.bot _ h) c (traced c (Handler.world _ s))).2 |}.

Definition edited {Player : Type} (s : Handler.Session Player) (stored : Message)
    (embed : Embed) : Handler.Session Player :=
  let c := message_edit (m_id stored) embed in
  {| Handler.self := Handler.self _ s;
     Handler.world :=
       (perform (Handler.bot _ (Handler.self _ s)) c (traced c (Handler.world _ s))).2 |}.

(** The menu session once [wait_for] has returned the event that arrived at
    time [t], the later events being [rest]. *)
Definition received (s : Menu.Session) (t : N) (rest : list (N * Event)) : Menu.Session :=
  {| Menu.self := Menu.self s;
     Menu.world :=
       {| clock := t; inbox := rest; board := board (Menu.world s);
          next_id := next_id (Menu.world s); trace := trace (Menu.world s);
          unawaited := unawaited (Menu.world s) |} |}.

(** The menu session once [wait_for] has reached its timeout. *)
Definition timed_out (s : Menu.Session) : Menu.Session :=
  {| Menu.self := Menu.self s;
     Menu.world :=
       {| clock := clock (Menu.world s) + 60; inbox := inbox (Menu.world s);
          board := board (Menu.world s); next_id := next_id (Menu.world s);
          trace := trace (Menu.world s); unawaited := unawaited (Menu.world s) |} |}.

(** The menu session after [await c]. *)
Definition awaited (b : Bot) (c : Coro) (s : Menu.Session) : Menu.Session :=
  {| Menu.self := Menu.self s;
     Menu.world := (perform b c (traced c (Menu.world s))).2 |}.

(** The next reaction event that the loop of the menu [s] accepts. *)
Definition next_reaction (s : Menu.Session) : option (N * Event * list (N * Event)) :=
  next_event (clock (Menu.world s)) (clock (Menu.world s) + 60) "reaction_add"
    (Menu.check (Menu.self s)) (inbox (Menu.world s)).

(** The binding that [attach_numbers] makes for a page. *)
Definition page_binding (page : string) : Menu.Func * list Menu.Arg :=
  (Menu.Menu_change_page, [Menu.the_menu; Menu.str_arg page]).

(** A posted menu over MAIN, A and B: the live message is message 2. *)
Definition sample_menu_pages : dict string Embed :=
  [("MAIN", sample_embed "Main"); ("A", sample_embed "First"); ("B", sample_embed "Second")].

Definition live_message : Message :=
  {| m_id := 2; author := 0; channel := 3; content := "" |}.

Definition sample_menu (b : Bot) (bound : dict Emoji (Menu.Func * list Menu.Arg))
    (events : list (N * Event)) : Menu.Session :=
  {| Menu.self :=
       {| Menu.pages := sample_menu_pages; Menu.ctx := sample_ctx; Menu.bot := b;
          Menu.reactions := bound; Menu.message := Some live_message;
          Menu.exit := false |};
     Menu.world :=
       {| clock := 0; inbox := events;
          board := {[ 1 := {| shown_embed := None; shown_reactions := [(":+1:", 8)] |};
                      2 := {| shown_embed := Some (sample_embed "Main");
                              shown_reactions := [(":one:", 0)] |} ]};
          next_id := 3; trace := []; unawaited := [] |} |}.

(** No function of the caller is bound. *)
Definition no_user_call (id : nat) (args : list Menu.Arg) : Py Menu.Session unit :=
  raise TypeError.

(** Function 0 of the caller closes the menu. *)
Definition closing_call (id : nat) (args : list Menu.Arg) : Py Menu.Session unit :=
  match id with
  | 0 => Menu.update Menu.set_exit
  | _ => raise TypeError
  end.

(** The next message event that [get_message] accepts. *)
Definition next_message {Player : Type} (s : Handler.Session Player)
    : option (N * Event * list (N * Event)) :=
  next_event (clock (Handler.world _ s)) (clock (Handler.world _ s) + 60) "message"
    (Handler.check _ (Handler.self _ s)) (inbox (Handler.world _ s)).

(** Events in which nothing for the session arrives within 60 seconds: a
    reaction and a message of another user, then, after 61 seconds, a
    reaction and a message of the invoking user. *)
Definition idle_events : list (N * Event) :=
  [(10%N, on_reaction_add {| emoji := ":one:"; r_message := 2 |} 8);
   (20%N, on_message {| m_id := 5; author := 8; channel := 3; content := "hello" |});
   (61%N, on_reaction_add {| emoji := ":one:"; r_message := 2 |} 7);
   (61%N, on_message {| m_id := 6; author := 7; channel := 3; content := "late" |})].

(** The bindings after [attach_numbers] has gone through the pairs of a page
    key and a symbol in [l], starting from the bindings [d]. *)
Definition bind_pages (d : dict Emoji (Menu.Func * list Menu.Arg))
    (l : list (string * Emoji)) : dict Emoji (Menu.Func * list Menu.Arg) :=
  foldl (λ d' '(page, e), dict_set d' e (page_binding page)) d l.

Definition with_reactions (d : dict Emoji (Menu.Func * list Menu.Arg)) (s : Menu.Session)
    : Menu.Session :=
  {| Menu.self :=
       {| Menu.pages := Menu.pages (Menu.self s); Menu.ctx := Menu.ctx (Menu.self s);
          Menu.bot := Menu.bot (Menu.self s); Menu.reactions := d;
          Menu.message := Menu.message (Menu.self s); Menu.exit := Menu.exit (Menu.self s) |};
     Menu.world := Menu.world s |}.

(** Auto-pagination as the specification words it: the symbols go, in order,
    to the page keys other than MAIN. *)
Definition attach_numbers_skipping_MAIN (PAGES : nat → option Emoji) : Py Menu.Session unit :=
  s ← get;
  for_each (zip (filter (λ page, page ≠ "MAIN") (dict_keys (Menu.pages (Menu.self s))))
              (seq 1 9))
    (λ '(page, i),
       e ← of_option LookupError (PAGES i);
       Menu.update (Menu.set_reaction e (page_binding page))).

(** A table of page symbols, from 1 to 9. *)
Definition sample_symbols : list Emoji :=
  [":one:"; ":two:"; ":three:"; ":four:"; ":five:"; ":six:"; ":seven:"; ":eight:"; ":nine:"].

Definition sample_PAGES (i : nat) : option Emoji :=
  match i with
  | 0 => None
  | S k => sample_symbols !! k
  end.

(** A menu of eleven pages that is not posted yet. *)
Definition eleven_pages : dict string Embed :=
  (λ key, (key, sample_embed key))
    <$> ["MAIN"; "P1"; "P2"; "P3"; "P4"; "P5"; "P6"; "P7"; "P8"; "P9"; "P10"].

Definition eleven_menu : Menu.Session :=
  {| Menu.self := Menu.init eleven_pages sample_ctx discord_bot;
     Menu.world := sample_world [] |}.

(** [x] pairs a page with the number whose symbol, in the table [PAGES], is
    paired with that page in [y]. *)
Definition numbered (PAGES : nat → option Emoji) (x : string * nat) (y : string * Emoji)
    : Prop :=
  x.1 = y.1 ∧ PAGES x.2 = Some y.2.

(** A menu that is not posted yet, with one page symbol bound. *)
Definition fresh_menu (b : Bot) (events : list (N * Event)) : Menu.Session :=
  {| Menu.self :=
       {| Menu.pages := sample_menu_pages; Menu.ctx := sample_ctx; Menu.bot := b;
          Menu.reactions := [(":one:", page_binding "A")]; Menu.message := None;
          Menu.exit := false |};
     Menu.world := sample_world events |}.

(** A message of the invoking user in the channel, 30 seconds in. *)
Definition prompt_events : list (N * Event) :=
  [(10%N, on_message {| m_id := 5; author := 8; channel := 3; content := "hello" |});
   (20%N, on_message {| m_id := 6; author := 7; channel := 4; content := "elsewhere" |});
   (30%N, on_message {| m_id := 7; author := 7; channel := 3; content := "yes" |})].

(** ** The render of a flow, as a function of the flow

    What [retrieve_embed] adds for one field tuple: a tuple of two elements
    is inline, a longer one gives its third element as the flag, a shorter
    one has no [field[1]]. *)
Definition field_of (field : list PyVal) : option EmbedField :=
  match field with
  | [n; v] => Some {| name := n; value := v; inline := VBool true |}
  | n :: v :: i :: _ => Some {| name := n; value := v; inline := i |}
  | _ => None
  end.

Definition render (flow : Flow.t) (col : Colour) : Outcome Embed :=
  match mapM field_of (Flow.fields flow) with
  | Some fs =>
      Ok {| title := Flow.title flow; colour := col; fields := fs;
            footer_text := Flow.footer_text flow;
            footer_icon_url := Flow.footer_image flow;
            thumbnail_url := Flow.thumbnail flow; image_url := Flow.image flow |}
  | None => Raise IndexError
  end.

Definition rendering {Player : Type} (get_colour : string → option Colour)
    (h : Handler.t Player) (flow_type : string) : Outcome Embed :=
  match dict_get (Handler.pages _ h) flow_type with
  | None => Raise KeyError
  | Some page =>
      let flow := Handler.build _ page (Handler.player _ h) in
      match get_colour (Flow.colour flow) with
      | None => Raise LookupError
      | Some col => render flow col
      end
  end.

(** The message that the platform creates next, for the client [b] in the
    channel of the invoking message. *)
Definition next_message_of (b : Bot) (c : Context) (w : World) : Message :=
  {| m_id := next_id w; author := bot_user b; channel := channel (ctx_message c);
     content := "" |}.

(** The handler session after [send] has posted [embed]. *)
Definition sent {Player : Type} (s : Handler.Session Player) (embed : Embed)
    : Handler.Session Player :=
  let h := Handler.self _ s in
  let c := channel_send (channel (ctx_message (Handler.ctx _ h))) embed in
  {| Handler.self := h;
     Handler.world := (perform (Handler.bot _ h) c (traced c (Handler.world _ s))).2 |}.

(** The flows that a pointer leads through. *)
Fixpoint chain (p : Handler.Pointer) : list string :=
  match p with
  | Handler.Ptr flow None => [flow]
  | Handler.Ptr flow (Some q) => flow :: chain q
  end.

(** Induction along a pointer. *)
Fixpoint Pointer_chain_ind (P : Handler.Pointer → Prop)
    (last : ∀ flow, P (Handler.Ptr flow None))
    (step : ∀ flow q, P q → P (Handler.Ptr flow (Some q)))
    (p : Handler.Pointer) : P p :=
  match p with
  | Handler.Ptr flow None => last flow
  | Handler.Ptr flow (Some q) => step flow q (Pointer_chain_ind P last step q)
  end.

(** The menu session after a reaction was added to message [m] for each
    symbol of [keys], in order. *)
Definition reacted (b : Bot) (m : MsgId) (keys : list Emoji) (s : Menu.Session)
    : Menu.Session :=
  foldl (λ s' e, awaited b (message_add_reaction m e) s') s keys.

(** The menu session after [deploy_menu] has posted [embed] and stored the
    message. *)
Definition deployed (embed : Embed) (s : Menu.Session) : Menu.Session :=
  let m := Menu.self s in
  let live := next_message_of (Menu.bot m) (Menu.ctx m) (Menu.world s) in
  {| Menu.self := Menu.set_message live m;
     Menu.world :=
       Menu.world (awaited (Menu.bot m)
                     (channel_send (channel (ctx_message (Menu.ctx m))) embed) s) |}.

(** Every binding of the menu is a page change. *)
Definition only_pages (m : Menu.t) : Prop :=
  ∀ e b, dict_get (Menu.reactions m) e = Some b → b.1 = Menu.Menu_change_page.

(** [embed] with the fields [added] after its own. *)
Definition extend (embed : Embed) (added : list EmbedField) : Embed :=
  {| title := title embed; colour := colour embed; fields := fields embed ++ added;
     footer_text := footer_text embed; footer_icon_url := footer_icon_url embed;
     thumbnail_url := thumbnail_url embed; image_url := image_url embed |}.

(** A table that has only the first two page symbols. *)
Definition short_PAGES (i : nat) : option Emoji :=
  match i with
  | 1 => Some ":one:"
  | 2 => Some ":two:"
  | _ => None
  end.

(** * Properties *)

(** ** The monad *)

Lemma bind_unfold {S A B} (m : Py S A) (k : A → Py S B) (s : S) :
  (m ≫= k) s = bind m k s.
Proof. reflexivity. Qed.

Lemma bind_Ok {S A B} (m : Py S A) (k : A → Py S B) (s s1 : S) (a : A) :
  m s = (Ok a, s1) → (m ≫= k) s = k a s1.
Proof. intros Hm. rewrite bind_unfold. unfold bind. by rewrite Hm. Qed.

Lemma bind_Raise {S A B} (m : Py S A) (k : A → Py S B) (s s1 : S) (e : PyExc) :
  m s = (Raise e, s1) → (m ≫= k) s = (Raise e, s1).
Proof. intros Hm. rewrite bind_unfold. unfold bind. by rewrite Hm. Qed.

Lemma bind_get {S B} (k : S → Py S B) (s : S) : (get ≫= k) s = k s s.
Proof. reflexivity. Qed.

Lemma bind_ret {S A B} (a : A) (k : A → Py S B) (s : S) : (ret a ≫= k) s = k a s.
Proof. reflexivity. Qed.

Lemma bind_raise {S A B} (e : PyExc) (k : A → Py S B) (s : S) :
  (raise e ≫= k) s = (Raise e, s).
Proof. reflexivity. Qed.

Lemma bind_modify {S B} (f : S → S) (k : unit → Py S B) (s : S) :
  (modify f ≫= k) s = k () (f s).
Proof. reflexivity. Qed.

Lemma bind_bind {S A B C} (m : Py S A) (f : A → Py S B) (g : B → Py S C) (s : S) :
  ((m ≫= f) ≫= g) s = (m ≫= λ a, f a ≫= g) s.
Proof. unfold mbind, Py_bind, bind. by destruct (m s) as [[a | e |] s1]. Qed.

Lemma bind_other {S A B} (m : Py S A) (k : A → Py S B) (s s1 : S) (r : Outcome A) :
  m s = (r, s1) → (∀ a, r ≠ Ok a) → ((m ≫= k) s).2 = s1.
Proof.
  intros Hm Hr. rewrite bind_unfold. unfold bind. rewrite Hm.
  destruct r as [a | e |]; [by destruct (Hr a) | done ..].
Qed.

(** Runs the next statement of a computation applied to a state. *)
Ltac py_step :=
  first [ rewrite bind_bind | rewrite bind_get | rewrite bind_ret
        | rewrite bind_raise | rewrite bind_modify ].

Lemma bind_Ok_inv {S A B} (m : Py S A) (k : A → Py S B) (s s' : S) (b : B) :
  (m ≫= k) s = (Ok b, s') → ∃ a s1, m s = (Ok a, s1) ∧ k a s1 = (Ok b, s').
Proof.
  rewrite bind_unfold. unfold bind.
  destruct (m s) as [[a | e |] s1]; intros H; try discriminate.
  by exists a, s1.
Qed.

Lemma of_option_Ok_inv {S A} (e : PyExc) (o : option A) (s s' : S) (a : A) :
  of_option e o s = (Ok a, s') → o = Some a ∧ s' = s.
Proof. destruct o; cbn; intros [=]; by subst. Qed.

Lemma readonly_ret {S A} (a : A) : readonly (ret (S := S) a).
Proof. done. Qed.

Lemma readonly_raise {S A} (e : PyExc) : readonly (raise (S := S) (A := A) e).
Proof. done. Qed.

Lemma readonly_get {S} : readonly (get (S := S)).
Proof. done. Qed.

Lemma readonly_of_option {S A} (e : PyExc) (o : option A) :
  readonly (of_option (S := S) e o).
Proof. by destruct o. Qed.

Lemma readonly_bind {S A B} (m : Py S A) (k : A → Py S B) :
  readonly m → (∀ a, readonly (k a)) → readonly (m ≫= k).
Proof.
  intros Hm Hk s. rewrite bind_unfold. unfold bind.
  specialize (Hm s). destruct (m s) as [[a | e |] s1]; cbn in Hm; subst; [apply Hk | done ..].
Qed.

(** ** Rendering of the fields *)

Lemma add_fields_Ok_inv {S} (fs : list (list PyVal)) (embed e : Embed) (s s' : S) :
  Handler.add_fields fs embed s = (Ok e, s') →
  s' = s ∧ title e = title embed ∧ colour e = colour embed ∧
  ∃ added, fields e = fields embed ++ added ∧ Forall2 rendered fs added.
Proof.
  revert embed. induction fs as [| field rest IH]; intros embed; cbn.
  - intros [= <- <-]. repeat split. exists []. by rewrite app_nil_r.
  - destruct (decide (length field = 2)) as [Hlen | Hlen]; intros H.
    + apply bind_Ok_inv in H as (n & s1 & Hn & H).
      apply bind_Ok_inv in H as (v & s2 & Hv & H).
      apply of_option_Ok_inv in Hn as [Hn ->], Hv as [Hv ->].
      apply IH in H as (-> & Ht & Hc & added & Hf & Hall).
      repeat split; [done .. |].
      exists ({| name := n; value := v; inline := VBool true |} :: added).
      split; [by rewrite Hf; cbn; rewrite <- app_assoc |].
      constructor; [| done]. unfold rendered; cbn. by rewrite decide_True.
    + apply bind_Ok_inv in H as (n & s1 & Hn & H).
      apply bind_Ok_inv in H as (v & s2 & Hv & H).
      apply bind_Ok_inv in H as (i & s3 & Hi & H).
      apply of_option_Ok_inv in Hn as [Hn ->], Hv as [Hv ->], Hi as [Hi ->].
      apply IH in H as (-> & Ht & Hc & added & Hf & Hall).
      repeat split; [done .. |].
      exists ({| name := n; value := v; inline := i |} :: added).
      split; [by rewrite Hf; cbn; rewrite <- app_assoc |].
      constructor; [| done]. unfold rendered; cbn. by rewrite decide_False.
Qed.

Lemma add_fields_total {S} (fs : list (list PyVal)) (embed : Embed) (s : S) :
  Forall (λ field, length field = 2 ∨ length field = 3) fs →
  ∃ e, Handler.add_fields fs embed s = (Ok e, s).
Proof.
  intros Hall. revert embed. induction Hall as [| field rest Hlen _ IH]; intros embed; cbn.
  - by eexists.
  - destruct (decide (length field = 2)) as [H2 | H2].
    + destruct field as [| n [| v [| ? ?]]]; try discriminate. cbn. apply IH.
    + destruct Hlen as [? | H3]; [done |].
      destruct field as [| n [| v [| i [| ? ?]]]]; try discriminate. cbn. apply IH.
Qed.

Section RetrieveEmbed.
Context {Player : Type} (get_colour : string → option Colour).
Implicit Types (s : Handler.Session Player) (page : Handler.Page Player).

Lemma retrieve_embed_Ok_inv s s' flow_type e :
  Handler.retrieve_embed Player get_colour flow_type s = (Ok e, s') →
  s' = s ∧
  ∃ page, dict_get (Handler.pages _ (Handler.self _ s)) flow_type = Some page ∧
    let flow := Handler.build _ page (Handler.player _ (Handler.self _ s)) in
    get_colour (Flow.colour flow) = Some (colour e) ∧
    title e = Flow.title flow ∧
    Forall2 rendered (Flow.fields flow) (fields e).
Proof.
  unfold Handler.retrieve_embed. intros H.
  apply bind_Ok_inv in H as (s0 & s1 & [= <- <-] & H).
  apply bind_Ok_inv in H as (page & s1 & Hpage & H).
  apply of_option_Ok_inv in Hpage as [Hpage ->].
  apply bind_Ok_inv in H as (col & s1 & Hcol & H).
  apply of_option_Ok_inv in Hcol as [Hcol ->].
  apply bind_Ok_inv in H as (embed & s1 & Hadd & H).
  apply add_fields_Ok_inv in Hadd as (-> & Ht & Hc & added & Hf & Hall).
  injection H as <- <-. cbn in *. split; [done |].
  exists page. repeat split; [done | by rewrite Hc | done | by rewrite Hf].
Qed.

Lemma retrieve_embed_total s flow_type page :
  dict_get (Handler.pages _ (Handler.self _ s)) flow_type = Some page →
  let flow := Handler.build _ page (Handler.player _ (Handler.self _ s)) in
  is_Some (get_colour (Flow.colour flow)) →
  Forall (λ field, length field = 2 ∨ length field = 3) (Flow.fields flow) →
  ∃ e, Handler.retrieve_embed Player get_colour flow_type s = (Ok e, s).
Proof.
  intros Hpage flow [col Hcol] Hall. unfold Handler.retrieve_embed.
  erewrite bind_Ok by reflexivity.
  erewrite bind_Ok by (unfold subscript; rewrite Hpage; reflexivity).
  fold flow.
  erewrite bind_Ok by (rewrite Hcol; reflexivity).
  edestruct (add_fields_total (S := Handler.Session Player) (Flow.fields flow)) as [e He];
    [done |].
  erewrite bind_Ok by apply He. by eexists.
Qed.

(** C6: when [retrieve_embed] renders a flow, the i-th field of the embed
    comes from the i-th field tuple of the flow: a tuple of exactly 2
    elements gives an inline field, a tuple of 3 elements gives a field whose
    inline flag is the third element; and a flow whose colour is known and
    whose tuples all have 2 or 3 elements is rendered, leaving the handler
    and the platform as they were. *)
Theorem retrieve_embed_inline s flow_type page :
  dict_get (Handler.pages _ (Handler.self _ s)) flow_type = Some page →
  let flow := Handler.build _ page (Handler.player _ (Handler.self _ s)) in
  (is_Some (get_colour (Flow.colour flow)) →
   Forall (λ field, length field = 2 ∨ length field = 3) (Flow.fields flow) →
   ∃ e, Handler.retrieve_embed Player get_colour flow_type s = (Ok e, s)) ∧
  (∀ e s', Handler.retrieve_embed Player get_colour flow_type s = (Ok e, s') →
     length (fields e) = length (Flow.fields flow) ∧
     ∀ i n v,
       (Flow.fields flow !! i = Some [n; v] →
        fields e !! i = Some {| name := n; value := v; inline := VBool true |}) ∧
       (∀ third, Flow.fields flow !! i = Some [n; v; third] →
        fields e !! i = Some {| name := n; value := v; inline := third |})).
Proof.
  intros Hpage flow. split; [by apply retrieve_embed_total |].
  intros e s' H. apply retrieve_embed_Ok_inv in H as (-> & page' & Hpage' & _ & _ & Hall).
  rewrite Hpage in Hpage'. injection Hpage' as <-. fold flow in Hall.
  split; [symmetry; by eapply Forall2_length |].
  intros i n v. split.
  - intros Hi. destruct (Forall2_lookup_l _ _ _ _ _ Hall Hi) as ([n' v' i'] & -> & Hn & Hv & Hin).
    cbn in *. rewrite decide_True in Hin by done. by simplify_eq.
  - intros third Hi.
    destruct (Forall2_lookup_l _ _ _ _ _ Hall Hi) as ([n' v' i'] & -> & Hn & Hv & Hin).
    cbn in *. rewrite decide_False in Hin by done. by simplify_eq.
Qed.
End RetrieveEmbed.

(** The flow A of the sample page source is rendered. *)
Lemma retrieve_embed_inline_witness :
  ∃ e, Handler.retrieve_embed unit sample_colours "A" (sample_handler discord_bot [])
       = (Ok e, sample_handler discord_bot []).
Proof.
  destruct (retrieve_embed_inline sample_colours (sample_handler discord_bot []) "A"
              {| Handler.build := λ _, sample_flow "First"; Handler.pointer := None |}
              eq_refl) as [total _].
  apply total; [by eexists | repeat constructor; by left + by right].
Defined.

(** ** The walk of [retrieve_menu] *)

Section RetrieveMenu.
Context {Player : Type} (get_colour : string → option Colour).

(** [retrieve_menu] never returns a menu: it unpacks the one embed that
    [retrieve_embed] returns into two names. *)
Lemma retrieve_menu_never_returns (s s' : Handler.Session Player) flow_type menu :
  Handler.retrieve_menu Player get_colour flow_type s ≠ (Ok menu, s').
Proof.
  unfold Handler.retrieve_menu. intros H.
  apply bind_Ok_inv in H as (s0 & s1 & _ & H).
  apply bind_Ok_inv in H as (e & s2 & _ & H).
  apply bind_Ok_inv in H as (pair & s3 & Hpair & _).
  discriminate Hpair.
Qed.
End RetrieveMenu.

(** The loop of [retrieve_menu] itself, entered with the rendered MAIN page,
    collects the keys MAIN, A and B of the sample chain. *)
Example follow_sample_chain :
  ∃ main menu,
    Handler.retrieve_embed unit sample_colours "MAIN" (sample_handler discord_bot [])
      = (Ok main, sample_handler discord_bot []) ∧
    Handler.follow unit sample_colours (Handler.Ptr "A" (Some (Handler.Ptr "B" None)))
      [("MAIN", main)] (sample_handler discord_bot [])
      = (Ok menu, sample_handler discord_bot []) ∧
    dict_keys menu = ["MAIN"; "A"; "B"].
Proof. do 2 eexists. split; [reflexivity |]. split; [by vm_compute | reflexivity]. Qed.

(** C1: on the page source whose chain is MAIN, A, B, [retrieve_menu "MAIN"]
    raises [TypeError] at its first statement and returns no menu: the
    result of [retrieve_embed] is one embed, which cannot be unpacked into
    [embed, message_type]. *)
Theorem retrieve_menu_sample_raises :
  Handler.retrieve_menu unit sample_colours "MAIN" (sample_handler discord_bot [])
  = (Raise TypeError, sample_handler discord_bot []).
Proof. reflexivity. Qed.

(** ** [display]: one message, then edits *)

Section Display.
Context {Player : Type} (get_colour : string → option Colour).
Implicit Types (s : Handler.Session Player) (h : Handler.t Player).

Local Abbreviation retrieve_embed := (Handler.retrieve_embed Player get_colour).
Local Abbreviation display := (Handler.display Player get_colour).

Lemma add_fields_readonly {S} (fs : list (list PyVal)) (embed : Embed) :
  readonly (Handler.add_fields (S := S) fs embed).
Proof.
  revert embed. induction fs as [| field rest IH]; intros embed; [done |]. cbn.
  destruct (decide (length field = 2));
    repeat (apply readonly_bind; [apply readonly_of_option | intros ?]); apply IH.
Qed.

Lemma retrieve_embed_state s flow_type : (retrieve_embed flow_type s).2 = s.
Proof.
  revert s. change (readonly (retrieve_embed flow_type)). unfold Handler.retrieve_embed.
  apply readonly_bind; [apply readonly_get | intros s0].
  apply readonly_bind; [apply readonly_of_option | intros page].
  apply readonly_bind; [apply readonly_of_option | intros col].
  apply readonly_bind; [apply add_fields_readonly | intros embed].
  apply readonly_ret.
Qed.

Lemma retrieve_embed_cases s flow_type :
  (∃ e, retrieve_embed flow_type s = (Ok e, s)) ∨
  (∃ r, retrieve_embed flow_type s = (r, s) ∧ ∀ e, r ≠ Ok e).
Proof.
  pose proof (retrieve_embed_state s flow_type) as Hst.
  destruct (retrieve_embed flow_type s) as [[e | x |] s1]; cbn in Hst; subst;
    [left; by eexists | right; by eexists | right; by eexists].
Qed.

Lemma display_first s flow :
  Handler.message _ (Handler.self _ s) = None →
  (∀ e, retrieve_embed flow s = (Ok e, s) → display flow s = (Ok (), posted s e)) ∧
  (∀ r, retrieve_embed flow s = (r, s) → (∀ e, r ≠ Ok e) → (display flow s).2 = s).
Proof.
  intros Hnone. unfold Handler.display, Handler.send. py_step. rewrite Hnone. split.
  - intros e He. repeat py_step. by rewrite (bind_Ok _ _ _ _ _ He).
  - intros r Hr Hne. repeat py_step. by eapply bind_other.
Qed.

Lemma display_later s flow stored :
  Handler.message _ (Handler.self _ s) = Some stored →
  (∀ e, retrieve_embed flow s = (Ok e, s) → display flow s = (Ok (), edited s stored e)) ∧
  (∀ r, retrieve_embed flow s = (r, s) → (∀ e, r ≠ Ok e) → (display flow s).2 = s).
Proof.
  intros Hsome. unfold Handler.display. py_step. rewrite Hsome. split.
  - intros e He. by rewrite (bind_Ok _ _ _ _ _ He).
  - intros r Hr Hne. by eapply bind_other.
Qed.
End Display.

(** ** The menu *)

Lemma dict_mem_get {K V} `{EqDecision K} (d : dict K V) (k : K) :
  dict_mem d k = true ↔ is_Some (dict_get d k).
Proof.
  unfold dict_mem, dict_keys. rewrite bool_decide_eq_true.
  induction d as [| [k' v] d IH]; cbn.
  - rewrite elem_of_nil. split; [done | by intros [? ?]].
  - rewrite elem_of_cons. destruct (decide (k = k')) as [-> | Hne].
    + split; [by eexists | by left].
    + rewrite <- IH. split; [by intros [? | ?] | by right].
Qed.

(** C10: [clear_reactions] returns without performing any call and leaves
    the menu and every message of the platform, the live menu message
    included, as they were: it builds the coroutine that would clear the
    reactions of the invoking command message and drops it unawaited; and
    that coroutine, were it awaited, would still leave the reactions of the
    live message alone, since it names the command message. *)
Theorem clear_reactions_no_effect (s : Menu.Session) (live : Message) :
  Menu.message (Menu.self s) = Some live →
  let command := ctx_message (Menu.ctx (Menu.self s)) in
  ∃ s', Menu.clear_reactions s = (Ok (), s') ∧
    Menu.self s' = Menu.self s ∧
    board (Menu.world s') = board (Menu.world s) ∧
    trace (Menu.world s') = trace (Menu.world s) ∧
    unawaited (Menu.world s')
      = unawaited (Menu.world s) ++ [message_clear_reactions (m_id command)] ∧
    (m_id live ≠ m_id command →
     board (Menu.world (awaited (Menu.bot (Menu.self s))
                          (message_clear_reactions (m_id command)) s)) !! m_id live
     = board (Menu.world s) !! m_id live).
Proof.
  intros Hlive command. eexists. split; [reflexivity |]. cbn.
  repeat split. intros Hne. by rewrite lookup_alter_ne.
Qed.

(** On the sample menu the live message 2 keeps its reaction. *)
Lemma clear_reactions_no_effect_witness :
  ∃ s', Menu.clear_reactions (sample_menu discord_bot [] []) = (Ok (), s') ∧
        board (Menu.world s') !! 2
        = Some {| shown_embed := Some (sample_embed "Main");
                  shown_reactions := [(":one:", 0)] |}.
Proof.
  destruct (clear_reactions_no_effect (sample_menu discord_bot [] []) live_message eq_refl)
    as (s' & Hrun & _ & Hboard & _).
  exists s'. split; [exact Hrun |]. rewrite Hboard. reflexivity.
Defined.

Lemma next_event_Some now deadline ev_name chk pending t ev rest :
  next_event now deadline ev_name chk pending = Some (t, ev, rest) →
  chk ev = true ∧ event_name ev = ev_name ∧ (now < t ≤ deadline)%N ∧
  ∃ skipped, pending = skipped ++ (t, ev) :: rest.
Proof.
  induction pending as [| [t' ev'] pending IH]; cbn; [done |].
  assert (next_event now deadline ev_name chk pending = Some (t, ev, rest) →
          chk ev = true ∧ event_name ev = ev_name ∧ (now < t ≤ deadline)%N ∧
          ∃ skipped, (t', ev') :: pending = skipped ++ (t, ev) :: rest) as Hskip.
  { intros H. destruct (IH H) as (? & ? & ? & skipped & ->).
    do 3 (split; [done |]). by exists ((t', ev') :: skipped). }
  destruct (N.ltb_spec deadline t') as [Hlate | Hearly]; [done |].
  destruct (N.ltb_spec now t') as [Hnow | Hstale]; cbn; [| done].
  destruct (bool_decide (event_name ev' = ev_name)) eqn:Hname; cbn; [| done].
  destruct (chk ev') eqn:Hchk; [| done].
  intros [= -> -> ->]. apply bool_decide_eq_true in Hname.
  do 3 (split; [done |]). by exists [].
Qed.

Lemma wait_for_reaction_Some (s : Menu.Session) t ev rest :
  next_reaction s = Some (t, ev, rest) →
  Menu.lift (wait_for (Menu.bot (Menu.self s)) "reaction_add" 60 (Menu.check (Menu.self s))) s
  = (Ok (event_args ev), received s t rest).
Proof. unfold next_reaction, Menu.lift, wait_for. by intros ->. Qed.

Lemma wait_for_reaction_None (s : Menu.Session) :
  next_reaction s = None →
  Menu.lift (wait_for (Menu.bot (Menu.self s)) "reaction_add" 60 (Menu.check (Menu.self s))) s
  = (match on_timeout (Menu.bot (Menu.self s)) with
     | RaisesTimeoutError => Raise TimeoutError
     | ReturnsNone => Ok ONone
     end, timed_out s).
Proof.
  unfold next_reaction, Menu.lift, wait_for. intros ->.
  by destruct (on_timeout _).
Qed.




(** ** The loop of [deploy_menu] *)

Section Loop.
Variable user_call : nat → list Menu.Arg → Py Menu.Session unit.

(** The flag is tested before the next event is awaited. *)
Lemma loop_exit_set (s : Menu.Session) (fuel : nat) :
  Menu.exit (Menu.self s) = true → Menu.loop user_call (S fuel) s = (Ok (), s).
Proof. intros Hexit. cbn [Menu.loop]. unfold Menu.turn. py_step. by rewrite Hexit. Qed.

(** A turn that receives a reaction: the callback bound to its symbol, if
    any, then the removal of the reaction, then the loop again. *)
Lemma loop_event (s : Menu.Session) (fuel : nat) t r u rest :
  Menu.exit (Menu.self s) = false →
  next_reaction s = Some (t, on_reaction_add r u, rest) →
  Menu.loop user_call (S fuel) s
  = ((match dict_get (Menu.reactions (Menu.self s)) (emoji r) with
      | Some (func, args) => Menu.call user_call func args
      | None => ret ()
      end) ≫= λ _,
     Menu.lift (await (Menu.bot (Menu.self s)) (reaction_remove r u)) ≫= λ _,
     Menu.loop user_call fuel) (received s t rest).
Proof.
  intros Hexit Hnext. cbn [Menu.loop]. unfold Menu.turn at 1. py_step. rewrite Hexit.
  rewrite (bind_Ok _ _ _ _ _ (wait_for_reaction_Some s t _ rest Hnext)).
  cbn [event_args unpack2]. repeat py_step. cbn [received Menu.self].
  destruct (dict_mem (Menu.reactions (Menu.self s)) (emoji r)) eqn:Hmem.
  - apply dict_mem_get in Hmem as [[func args] Hget]. rewrite Hget.
    unfold subscript. rewrite Hget. cbn [of_option]. repeat py_step. reflexivity.
  - destruct (dict_get _ (emoji r)) as [bound |] eqn:Hget; [| reflexivity].
    assert (dict_mem (Menu.reactions (Menu.self s)) (emoji r) = true) as Hmem'
      by (apply dict_mem_get; by eexists).
    congruence.
Qed.

(** A turn in which the timeout is reached. *)
Lemma loop_timeout (s : Menu.Session) (fuel : nat) :
  Menu.exit (Menu.self s) = false →
  next_reaction s = None →
  Menu.loop user_call (S fuel) s
  = (Raise (match on_timeout (Menu.bot (Menu.self s)) with
            | RaisesTimeoutError => TimeoutError
            | ReturnsNone => TypeError
            end), timed_out s).
Proof.
  intros Hexit Hnext. cbn [Menu.loop]. unfold Menu.turn. py_step. rewrite Hexit.
  pose proof (wait_for_reaction_None s Hnext) as Hwait.
  destruct (on_timeout (Menu.bot (Menu.self s))).
  - by rewrite (bind_Raise _ _ _ _ _ Hwait).
  - by rewrite (bind_Ok _ _ _ _ _ Hwait).
Qed.

(** C8: when the reaction that the loop receives is bound to a callback that
    returns with the exit flag set, [deploy_menu]'s loop runs that callback
    to its end, removes the reaction, tests the flag and returns: the state
    it returns in is the state the callback left, with the one removal
    performed, and the events still to come are those the callback left. *)
Theorem exit_flag_ends_loop (s s_cb : Menu.Session) (fuel : nat) t r u rest func args :
  Menu.exit (Menu.self s) = false →
  next_reaction s = Some (t, on_reaction_add r u, rest) →
  dict_get (Menu.reactions (Menu.self s)) (emoji r) = Some (func, args) →
  Menu.call user_call func args (received s t rest) = (Ok (), s_cb) →
  Menu.exit (Menu.self s_cb) = true →
  let s_end := awaited (Menu.bot (Menu.self s)) (reaction_remove r u) s_cb in
  Menu.loop user_call (S (S fuel)) s = (Ok (), s_end) ∧
  Menu.self s_end = Menu.self s_cb ∧
  inbox (Menu.world s_end) = inbox (Menu.world s_cb) ∧
  trace (Menu.world s_end) = trace (Menu.world s_cb) ++ [reaction_remove r u].
Proof.
  intros Hexit Hnext Hbound Hcall Hset s_end.
  split; [| done].
  rewrite (loop_event s (S fuel) t r u rest Hexit Hnext), Hbound.
  rewrite (bind_Ok _ _ _ _ _ Hcall).
  erewrite bind_Ok by reflexivity.
  by apply loop_exit_set.
Qed.

(** C9: with a live message, [change_page] on a key that the pages lack
    raises [KeyError] and changes nothing, and the loop of [deploy_menu],
    receiving a reaction bound to such a page, ends with that [KeyError]
    instead of going on; on a key that the pages have, [change_page]
    performs one edit of the live message, which then shows the page stored
    at that key. *)
Theorem change_page_lookup (s : Menu.Session) (live : Message) (key : string) :
  Menu.message (Menu.self s) = Some live →
  (dict_get (Menu.pages (Menu.self s)) key = None →
   Menu.change_page (Menu.str_arg key) s = (Raise KeyError, s) ∧
   ∀ fuel t r u rest,
     Menu.exit (Menu.self s) = false →
     next_reaction s = Some (t, on_reaction_add r u, rest) →
     dict_get (Menu.reactions (Menu.self s)) (emoji r) = Some (page_binding key) →
     Menu.loop user_call (S fuel) s = (Raise KeyError, received s t rest)) ∧
  (∀ embed, dict_get (Menu.pages (Menu.self s)) key = Some embed →
   let s' := awaited (Menu.bot (Menu.self s)) (message_edit (m_id live) embed) s in
   Menu.change_page (Menu.str_arg key) s = (Ok (), s') ∧
   trace (Menu.world s') = trace (Menu.world s) ++ [message_edit (m_id live) embed] ∧
   board (Menu.world s') !! m_id live
   = set_embed embed <$> board (Menu.world s) !! m_id live).
Proof.
  intros Hlive. split.
  - intros Habsent.
    assert (∀ s0, Menu.self s0 = Menu.self s →
                  Menu.change_page (Menu.str_arg key) s0 = (Raise KeyError, s0)) as Hraise.
    { intros s0 Hself. unfold Menu.change_page. py_step. rewrite Hself, Hlive.
      unfold subscript. by rewrite Habsent. }
    split; [by apply Hraise |].
    intros fuel t r u rest Hexit Hnext Hbound.
    rewrite (loop_event s fuel t r u rest Hexit Hnext), Hbound.
    apply bind_Raise. cbn [page_binding Menu.call]. by apply Hraise.
  - intros embed Hpresent s'. split; [| split].
    + unfold Menu.change_page. py_step. rewrite Hlive.
      unfold subscript. rewrite Hpresent. cbn [of_option]. by repeat py_step.
    + reflexivity.
    + cbn. apply lookup_alter_eq.
Qed.
End Loop.

(** Two reactions bound to the closing function: the loop returns after the
    first and leaves the second in the inbox. *)
Lemma exit_flag_ends_loop_witness :
  Menu.loop closing_call 2
    (sample_menu discord_bot [(":x:", (Menu.user_function 0, []))]
       [(4%N, on_reaction_add {| emoji := ":x:"; r_message := 2 |} 7);
        (6%N, on_reaction_add {| emoji := ":x:"; r_message := 2 |} 7)])
  = (Ok (),
     awaited discord_bot (reaction_remove {| emoji := ":x:"; r_message := 2 |} 7)
       {| Menu.self :=
            Menu.set_exit
              (Menu.self (sample_menu discord_bot [(":x:", (Menu.user_function 0, []))] []));
          Menu.world :=
            Menu.world
              (received (sample_menu discord_bot [] []) 4
                 [(6%N, on_reaction_add {| emoji := ":x:"; r_message := 2 |} 7)]) |}).
Proof.
  refine (proj1 (exit_flag_ends_loop closing_call
            (sample_menu discord_bot [(":x:", (Menu.user_function 0, []))]
               [(4%N, on_reaction_add {| emoji := ":x:"; r_message := 2 |} 7);
                (6%N, on_reaction_add {| emoji := ":x:"; r_message := 2 |} 7)])
            _ 0 4%N {| emoji := ":x:"; r_message := 2 |} 7
            [(6%N, on_reaction_add {| emoji := ":x:"; r_message := 2 |} 7)]
            (Menu.user_function 0) [] eq_refl eq_refl eq_refl eq_refl eq_refl)).
Defined.

(** The sample menu has no page Z and has a page A. *)
Lemma change_page_lookup_witness :
  Menu.change_page (Menu.str_arg "Z") (sample_menu discord_bot [] []) 
  = (Raise KeyError, sample_menu discord_bot [] []) ∧
  Menu.loop no_user_call 3
    (sample_menu discord_bot [(":one:", page_binding "Z")]
       [(4%N, on_reaction_add {| emoji := ":one:"; r_message := 2 |} 7)])
  = (Raise KeyError,
     received (sample_menu discord_bot [(":one:", page_binding "Z")] []) 4 []) ∧
  board (Menu.world
           (awaited discord_bot (message_edit 2 (sample_embed "First"))
              (sample_menu discord_bot [] []))) !! 2
  = Some {| shown_embed := Some (sample_embed "First");
            shown_reactions := [(":one:", 0)] |}.
Proof.
  split; [| split].
  - exact (proj1 (proj1 (change_page_lookup no_user_call (sample_menu discord_bot [] [])
                           live_message "Z" eq_refl) eq_refl)).
  - exact (proj2 (proj1 (change_page_lookup no_user_call
                           (sample_menu discord_bot [(":one:", page_binding "Z")]
                              [(4%N, on_reaction_add {| emoji := ":one:"; r_message := 2 |} 7)])
                           live_message "Z" eq_refl) eq_refl)
             2 4%N {| emoji := ":one:"; r_message := 2 |} 7 [] eq_refl eq_refl eq_refl).
  - etrans; [| reflexivity].
    exact (proj2 (proj2 (proj2 (change_page_lookup no_user_call
                                  (sample_menu discord_bot [] []) live_message "A" eq_refl)
                           (sample_embed "First") eq_refl))).
Defined.

(** C2: in a posted menu whose loop is running, when no reaction of the
    invoking user arrives within 60 seconds, the loop does not return: with
    discord.py's [wait_for] it ends with [TimeoutError], and with a client
    whose [wait_for] returns [None] it ends with [TypeError], since [None]
    is unpacked into [reaction, user] before it is tested. *)
Theorem loop_timeout_raises (fuel : nat) :
  Menu.loop no_user_call (S fuel)
    (sample_menu discord_bot [(":one:", page_binding "A")] idle_events)
  = (Raise TimeoutError,
     timed_out (sample_menu discord_bot [(":one:", page_binding "A")] idle_events)) ∧
  Menu.loop no_user_call (S fuel)
    (sample_menu none_bot [(":one:", page_binding "A")] idle_events)
  = (Raise TypeError,
     timed_out (sample_menu none_bot [(":one:", page_binding "A")] idle_events)).
Proof. split; by apply loop_timeout. Qed.

(** The whole of [deploy_menu] on such events: the menu is posted, its symbol
    is added, and the call ends with the [TimeoutError] of the loop. *)
Example deploy_menu_timeout :
  let end_ := Menu.deploy_menu no_user_call 5 (fresh_menu discord_bot idle_events) in
  end_.1 = Raise TimeoutError ∧
  trace (Menu.world end_.2)
  = [channel_send 3 (sample_embed "Main"); message_add_reaction 2 ":one:"] ∧
  clock (Menu.world end_.2) = 60%N.
Proof. by vm_compute. Qed.

(** A reaction of the invoking user within the 60 seconds is dispatched: the
    page changes, the reaction is removed, and the next wait times out. *)
Example deploy_menu_dispatch :
  let end_ :=
    Menu.deploy_menu no_user_call 5
      (fresh_menu discord_bot
         [(10%N, on_reaction_add {| emoji := ":one:"; r_message := 2 |} 7)]) in
  end_.1 = Raise TimeoutError ∧
  trace (Menu.world end_.2)
  = [channel_send 3 (sample_embed "Main"); message_add_reaction 2 ":one:";
     message_edit 2 (sample_embed "First");
     reaction_remove {| emoji := ":one:"; r_message := 2 |} 7] ∧
  clock (Menu.world end_.2) = 70%N.
Proof. by vm_compute. Qed.

(** ** [get_message] *)

Section GetMessage.
Context {Player : Type}.
Implicit Types (s : Handler.Session Player).

Lemma get_message_in_time s t msg rest :
  next_message s = Some (t, on_message msg, rest) →
  (Handler.get_message Player s).1 = Ok (Some (content msg)).
Proof.
  unfold next_message, Handler.get_message. intros Hnext. py_step.
  rewrite bind_unfold. unfold bind, Handler.lift, wait_for. by rewrite Hnext.
Qed.

Lemma get_message_timeout s :
  next_message s = None →
  (Handler.get_message Player s).1
  = match on_timeout (Handler.bot _ (Handler.self _ s)) with
    | RaisesTimeoutError => Raise TimeoutError
    | ReturnsNone => Ok None
    end.
Proof.
  unfold next_message, Handler.get_message. intros Hnext. py_step.
  rewrite bind_unfold. unfold bind, Handler.lift, wait_for. rewrite Hnext.
  by destruct (on_timeout _).
Qed.
End GetMessage.

(** A message of the invoking user in the channel that arrives in time is
    returned by its content, whatever the client does on a timeout. *)
Example get_message_prompt (b : Bot) :
  (Handler.get_message unit (sample_handler b prompt_events)).1 = Ok (Some "yes").
Proof.
  by apply (get_message_in_time (sample_handler b prompt_events) 30%N
              {| m_id := 7; author := 7; channel := 3; content := "yes" |} []).
Qed.

(** Over a client whose [wait_for] returns [None] on a timeout, the timeout
    gives [None]. *)
Example get_message_timeout_none :
  (Handler.get_message unit (sample_handler none_bot idle_events)).1 = Ok None.
Proof. by rewrite get_message_timeout. Qed.

(** C3: when the only message of the invoking user in the channel arrives
    after 61 seconds, [get_message] over discord.py's [wait_for] raises
    [TimeoutError] and returns nothing, [None] included. *)
Theorem get_message_timeout_raises :
  (Handler.get_message unit (sample_handler discord_bot idle_events)).1
  = Raise TimeoutError.
Proof. by rewrite get_message_timeout. Qed.

(** ** Dictionaries *)

Section DictFacts.
Context {K V : Type} `{EqDecision K}.
Implicit Types (d : dict K V) (k : K) (v : V).

Lemma dict_get_set_eq d k v : dict_get (dict_set d k v) k = Some v.
Proof.
  induction d as [| [k' v'] d IH]; cbn; [by rewrite decide_True |].
  destruct (decide (k = k')) as [-> | Hne]; cbn.
  - by rewrite decide_True.
  - by rewrite decide_False.
Qed.

Lemma dict_get_set_ne d k k0 v : k ≠ k0 → dict_get (dict_set d k v) k0 = dict_get d k0.
Proof.
  intros Hne. induction d as [| [k' v'] d IH]; cbn; [by rewrite decide_False |].
  destruct (decide (k = k')) as [-> | Hne']; cbn.
  - by rewrite !decide_False.
  - by rewrite IH.
Qed.

Lemma dict_keys_set_fresh d k v :
  k ∉ dict_keys d → dict_keys (dict_set d k v) = dict_keys d ++ [k].
Proof.
  unfold dict_keys. induction d as [| [k' v'] d IH]; cbn; [done |].
  rewrite not_elem_of_cons. intros [Hne Hnotin].
  rewrite decide_False by done. cbn. by rewrite IH.
Qed.

Lemma dict_get_None d k : k ∉ dict_keys d → dict_get d k = None.
Proof.
  intros Hnotin. destruct (dict_get d k) eqn:Hget; [| done].
  destruct Hnotin. apply (proj1 (bool_decide_eq_true _)).
  change (dict_mem d k = true). apply dict_mem_get. by eexists.
Qed.
End DictFacts.

(** ** [attach_numbers] *)

Lemma bind_pages_cons d page e l :
  bind_pages d ((page, e) :: l) = bind_pages (dict_set d e (page_binding page)) l.
Proof. reflexivity. Qed.

Lemma dict_get_bind_pages_other d l e :
  e ∉ l.*2 → dict_get (bind_pages d l) e = dict_get d e.
Proof.
  revert d. induction l as [| [page e'] l IH]; intros d; [done |].
  rewrite fmap_cons, not_elem_of_cons, bind_pages_cons. intros [Hne Hnotin].
  rewrite IH by done. by apply dict_get_set_ne.
Qed.

Lemma dict_get_bind_pages d l k page e :
  NoDup l.*2 → l !! k = Some (page, e) →
  dict_get (bind_pages d l) e = Some (page_binding page).
Proof.
  revert d k. induction l as [| [page' e'] l IH]; intros d k; [done |].
  rewrite fmap_cons, NoDup_cons, bind_pages_cons. intros [Hfresh Hnodup].
  destruct k as [| k]; cbn [lookup list_lookup].
  - intros [= -> ->]. rewrite dict_get_bind_pages_other by done.
    apply dict_get_set_eq.
  - intros Hk. by eapply IH.
Qed.

Lemma dict_keys_bind_pages d l :
  NoDup l.*2 → (∀ e, e ∈ l.*2 → e ∉ dict_keys d) →
  dict_keys (bind_pages d l) = dict_keys d ++ l.*2.
Proof.
  revert d. induction l as [| [page e] l IH]; intros d; [by rewrite app_nil_r |].
  rewrite fmap_cons, NoDup_cons, bind_pages_cons. intros [Hfresh Hnodup] Hnew.
  assert (e ∉ dict_keys d) as He by (apply Hnew; left).
  rewrite IH; [| done |].
  - rewrite dict_keys_set_fresh by done. by rewrite <- app_assoc.
  - intros e2 He2. rewrite dict_keys_set_fresh by done.
    rewrite not_elem_of_app, not_elem_of_cons. split_and!.
    + apply Hnew. by right.
    + by intros ->.
    + apply not_elem_of_nil.
Qed.

Lemma snd_zip_take {A B} (l : list A) (l' : list B) :
  (zip l l').*2 = take (length l) l'.
Proof.
  revert l'. induction l as [| a l IH]; intros [| b l']; cbn; [done .. |].
  by rewrite IH.
Qed.

Lemma lookup_zip_Some {A B} (l : list A) (l' : list B) k a b :
  l !! k = Some a → l' !! k = Some b → zip l l' !! k = Some (a, b).
Proof.
  revert l' k. induction l as [| a0 l IH]; intros [| b0 l'] [| k]; cbn; try done.
  - by intros [= ->] [= ->].
  - apply IH.
Qed.

Lemma bind_update {B} (f : Menu.t → Menu.t) (k : unit → Py Menu.Session B)
    (s : Menu.Session) :
  (Menu.update f ≫= k) s = k () {| Menu.self := f (Menu.self s); Menu.world := Menu.world s |}.
Proof. reflexivity. Qed.

Section AttachNumbers.
Variable PAGES : nat → option Emoji.

Lemma for_each_bind_pages (l : list (string * nat)) (l' : list (string * Emoji))
    (s : Menu.Session) :
  Forall2 (numbered PAGES) l l' →
  for_each l (λ '(page, i),
                e ← of_option LookupError (PAGES i);
                Menu.update (Menu.set_reaction e (page_binding page))) s
  = (Ok (), with_reactions (bind_pages (Menu.reactions (Menu.self s)) l') s).
Proof.
  intros Hall. revert s.
  induction Hall as [| [page i] [page' e] l l' [Hpage Hsym] _ IH]; intros s.
  - by destruct s as [[] ?].
  - cbn in Hpage, Hsym. subst page'. cbn [for_each].
    change (bind ?m ?k ?s) with ((m ≫= k) s). py_step. rewrite Hsym.
    cbn [of_option]. py_step. rewrite bind_update.
    rewrite IH. by rewrite bind_pages_cons.
Qed.

Lemma zip_seq_numbered (keys : list string) (n : nat) (symbols : list Emoji) :
  (∀ k e, symbols !! k = Some e → PAGES (n + k) = Some e) →
  Forall2 (numbered PAGES) (zip keys (seq n (length symbols))) (zip keys symbols).
Proof.
  revert n symbols. induction keys as [| key keys IH]; intros n [| e symbols] Hsym; cbn;
    [constructor .. |].
  constructor.
  - split; [done |]. cbn. rewrite <- (Nat.add_0_r n). by apply Hsym.
  - apply IH. intros k e' Hk. rewrite Nat.add_succ_comm. by apply Hsym.
Qed.

Lemma attach_numbers_run (symbols : list Emoji) (s : Menu.Session) :
  length symbols = 9 →
  (∀ k e, symbols !! k = Some e → PAGES (S k) = Some e) →
  Menu.attach_numbers PAGES s
  = (Ok (), with_reactions
              (bind_pages (Menu.reactions (Menu.self s))
                 (zip (dict_keys (Menu.pages (Menu.self s))) symbols)) s).
Proof.
  intros Hlen Hsym. unfold Menu.attach_numbers. py_step.
  rewrite <- Hlen. apply (for_each_bind_pages _ _ s), zip_seq_numbered.
  intros k e. apply Hsym.
Qed.

(** C5, amended: with a table of nine distinct page symbols,
    [attach_numbers] raises nothing and binds the k-th symbol to the change to
    the k-th page key, in the order of the keys and with MAIN counted as a
    page like the others, for the first nine keys; it leaves every other
    binding as it was, so that it binds as many symbols as there are pages,
    and nine at most; on a menu of eleven page keys that has no binding yet
    it leaves exactly nine bindings, and no symbol changes to the tenth or
    the eleventh page. *)
Theorem attach_numbers_binds (symbols : list Emoji) (s : Menu.Session) :
  length symbols = 9 →
  NoDup symbols →
  (∀ k e, symbols !! k = Some e → PAGES (S k) = Some e) →
  let keys := dict_keys (Menu.pages (Menu.self s)) in
  let bound := take (length keys) symbols in
  ∃ s', Menu.attach_numbers PAGES s = (Ok (), s') ∧
    Menu.world s' = Menu.world s ∧
    Menu.pages (Menu.self s') = Menu.pages (Menu.self s) ∧
    (∀ k page e, keys !! k = Some page → symbols !! k = Some e →
       dict_get (Menu.reactions (Menu.self s')) e = Some (page_binding page)) ∧
    (∀ e, e ∉ bound →
       dict_get (Menu.reactions (Menu.self s')) e
       = dict_get (Menu.reactions (Menu.self s)) e) ∧
    length bound = 9 `min` length keys ∧
    (Menu.reactions (Menu.self s) = [] →
     dict_keys (Menu.reactions (Menu.self s')) = bound) ∧
    (length keys = 11 → NoDup keys → Menu.reactions (Menu.self s) = [] →
     length (Menu.reactions (Menu.self s')) = 9 ∧
     ∀ (k : nat) page e, (9 ≤ k)%nat → keys !! k = Some page →
       dict_get (Menu.reactions (Menu.self s')) e ≠ Some (page_binding page)).
Proof.
  intros Hlen Hnodup Hsym keys bound.
  assert ((zip keys symbols).*2 = bound) as Hsnd by apply snd_zip_take.
  assert (NoDup bound) as Hnodup' by (eapply sublist_NoDup; [done | apply sublist_take]).
  assert (∀ k page e, keys !! k = Some page → symbols !! k = Some e →
            ∀ d, dict_get (bind_pages d (zip keys symbols)) e = Some (page_binding page))
    as Hbound.
  { intros k page e Hk He d. apply (dict_get_bind_pages d _ k); [by rewrite Hsnd |].
    by apply lookup_zip_Some. }
  assert (Menu.reactions (Menu.self s) = [] →
          dict_keys (bind_pages (Menu.reactions (Menu.self s)) (zip keys symbols)) = bound)
    as Hkeys.
  { intros ->. rewrite dict_keys_bind_pages, Hsnd; [done | by rewrite Hsnd |].
    intros e _. apply not_elem_of_nil. }
  eexists. split; [by apply (attach_numbers_run symbols) |].
  cbn [with_reactions Menu.self Menu.world Menu.pages Menu.reactions]. fold keys.
  split; [done |]. split; [done |]. split; [intros k page e Hk He; by eapply Hbound |].
  split; [intros e He; apply dict_get_bind_pages_other; by rewrite Hsnd |].
  split; [unfold bound; rewrite length_take, Hlen; lia |].
  split; [done |].
  intros Hkeys11 Hnodupk Hempty. split.
  - rewrite <- (length_fmap fst). fold (dict_keys (bind_pages (Menu.reactions (Menu.self s))
                                          (zip keys symbols))).
    rewrite (Hkeys Hempty). unfold bound.
    rewrite length_take. lia.
  - intros k page e Hk9 Hk Hget.
    destruct (decide (e ∈ bound)) as [Hin | Hnotin].
    + apply elem_of_take in Hin as (j & Hj & Hjlt).
      assert (is_Some (keys !! j)) as [page' Hpage'] by (apply lookup_lt_is_Some; lia).
      rewrite (Hbound j page' e Hpage' Hj) in Hget. injection Hget as ->.
      assert (j = k) by (by eapply NoDup_lookup). 
      apply lookup_lt_Some in Hj. lia.
    + rewrite dict_get_bind_pages_other in Hget by (by rewrite Hsnd).
      by rewrite Hempty in Hget.
Qed.
End AttachNumbers.

(** On the menu of eleven pages, nine symbols are bound, the first to MAIN
    and the ninth to P8. *)
Lemma attach_numbers_binds_witness :
  ∃ s', Menu.attach_numbers sample_PAGES eleven_menu = (Ok (), s') ∧
    dict_get (Menu.reactions (Menu.self s')) ":one:" = Some (page_binding "MAIN") ∧
    dict_get (Menu.reactions (Menu.self s')) ":nine:" = Some (page_binding "P8") ∧
    length (Menu.reactions (Menu.self s')) = 9.
Proof.
  destruct (attach_numbers_binds sample_PAGES sample_symbols eleven_menu eq_refl)
    as (s' & Hrun & _ & _ & Hbound & _ & _ & _ & Heleven).
  - by apply (bool_decide_unpack (NoDup sample_symbols)).
  - intros k e Hk. exact Hk.
  - exists s'. split; [exact Hrun |].
    split; [exact (Hbound 0 "MAIN" ":one:" eq_refl eq_refl) |].
    split; [exact (Hbound 8 "P8" ":nine:" eq_refl eq_refl) |].
    refine (proj1 (Heleven eq_refl _ eq_refl)).
    by apply (bool_decide_unpack (NoDup (dict_keys eleven_pages))).
Defined.

(** C5, counterexample: on the menu over MAIN, A and B, [attach_numbers]
    binds the first symbol to MAIN and binds three symbols; pagination over
    the page keys other than MAIN would bind the first symbol to A and bind
    two. *)
Lemma attach_numbers_binds_MAIN :
  (Menu.reactions (Menu.self (Menu.attach_numbers sample_PAGES (sample_menu discord_bot [] [])).2)
   = [(":one:", page_binding "MAIN"); (":two:", page_binding "A");
      (":three:", page_binding "B")]) ∧
  (Menu.reactions
     (Menu.self (attach_numbers_skipping_MAIN sample_PAGES (sample_menu discord_bot [] [])).2)
   = [(":one:", page_binding "A"); (":two:", page_binding "B")]) ∧
  Menu.attach_numbers sample_PAGES (sample_menu discord_bot [] [])
  ≠ attach_numbers_skipping_MAIN sample_PAGES (sample_menu discord_bot [] []).
Proof.
  split; [by vm_compute |]. split; [by vm_compute |].
  intros Heq. apply (f_equal (λ r, length (Menu.reactions (Menu.self r.2)))) in Heq.
  vm_compute in Heq. discriminate Heq.
Qed.

(** * Further properties *)

(** ** [retrieve_embed] as a function of the flow *)

Lemma extend_nil (embed : Embed) : extend embed [] = embed.
Proof. destruct embed. unfold extend. cbn. by rewrite app_nil_r. Qed.

Lemma extend_add_field (embed : Embed) (n v i : PyVal) (added : list EmbedField) :
  extend (Handler.add_field embed n v i) added
  = extend embed ({| name := n; value := v; inline := i |} :: added).
Proof. unfold extend, Handler.add_field. cbn. by rewrite <- app_assoc. Qed.

Lemma add_fields_run {S} (fs : list (list PyVal)) (embed : Embed) (s : S) :
  Handler.add_fields fs embed s
  = (match mapM field_of fs with
     | Some added => Ok (extend embed added)
     | None => Raise IndexError
     end, s).
Proof.
  revert embed. induction fs as [| field rest IH]; intros embed.
  - cbn. by rewrite extend_nil.
  - cbn [Handler.add_fields mapM].
    destruct field as [| n [| v [| i more]]]; unfold Handler.item;
      cbn [length lookup list_lookup of_option field_of];
      (rewrite decide_True by done) || (rewrite decide_False by done);
      repeat py_step; try done.
    + rewrite IH. cbn. destruct (mapM field_of rest); cbn; [| done].
      by rewrite extend_add_field.
    + rewrite IH. cbn. destruct (mapM field_of rest); cbn; [| done].
      by rewrite extend_add_field.
Qed.

Section Rendering.
Context {Player : Type} (get_colour : string → option Colour).
Implicit Types (s : Handler.Session Player).

Local Abbreviation retrieve_embed := (Handler.retrieve_embed Player get_colour).

Lemma retrieve_embed_run s flow_type :
  retrieve_embed flow_type s = (rendering get_colour (Handler.self _ s) flow_type, s).
Proof.
  unfold Handler.retrieve_embed, rendering. py_step. unfold subscript.
  destruct (dict_get _ flow_type) as [page |]; [| done]. cbn [of_option]. py_step.
  destruct (get_colour _) as [col |]; [| done]. cbn [of_option]. py_step.
  rewrite bind_unfold. unfold bind, render. rewrite add_fields_run.
  by destruct (mapM field_of _).
Qed.

(** X1: [retrieve_embed] is a function of the flow alone and changes neither
    the handler nor the platform: an unknown flow gives [KeyError], then an
    unknown colour gives [LookupError], then a field tuple of fewer than two
    elements gives [IndexError]; otherwise the embed has the title, footer,
    thumbnail and image of the flow, the resolved colour, and one field per
    tuple, in order, where elements after the third are ignored. *)
Theorem retrieve_embed_is_rendering s flow_type :
  retrieve_embed flow_type s = (rendering get_colour (Handler.self _ s) flow_type, s).
Proof. apply retrieve_embed_run. Qed.
End Rendering.

(** ** [send] and [display] *)

Section SendDisplay.
Context {Player : Type} (get_colour : string → option Colour).
Implicit Types (s : Handler.Session Player).

Local Abbreviation send := (Handler.send Player get_colour).
Local Abbreviation display := (Handler.display Player get_colour).

Lemma send_run s flow :
  send flow s
  = match rendering get_colour (Handler.self _ s) flow with
    | Ok e =>
        (Ok (next_message_of (Handler.bot _ (Handler.self _ s))
               (Handler.ctx _ (Handler.self _ s)) (Handler.world _ s)),
         sent s e)
    | Raise x => (Raise x, s)
    | OutOfFuel => (OutOfFuel, s)
    end.
Proof.
  unfold Handler.send. py_step. rewrite bind_unfold. unfold bind at 1.
  rewrite retrieve_embed_run. by destruct (rendering _ _ _).
Qed.

(** X2: [send] posts a new message whenever the flow renders, also when a
    message is stored already: it returns the message that the platform
    creates, performs the one call [channel.send] in the channel of the
    invoking message, and leaves the handler, its stored message included,
    as it was; when the flow does not render it raises the error of the
    render and performs nothing. *)
Theorem send_posts_every_time s flow :
  (∀ e, rendering get_colour (Handler.self _ s) flow = Ok e →
     ∃ s', send flow s
           = (Ok (next_message_of (Handler.bot _ (Handler.self _ s))
                    (Handler.ctx _ (Handler.self _ s)) (Handler.world _ s)), s') ∧
       Handler.self _ s' = Handler.self _ s ∧
       next_id (Handler.world _ s') = S (next_id (Handler.world _ s)) ∧
       trace (Handler.world _ s')
       = trace (Handler.world _ s)
         ++ [channel_send (channel (ctx_message (Handler.ctx _ (Handler.self _ s)))) e] ∧
       board (Handler.world _ s') !! next_id (Handler.world _ s)
       = Some {| shown_embed := Some e; shown_reactions := [] |}) ∧
  (∀ x, rendering get_colour (Handler.self _ s) flow = Raise x →
     send flow s = (Raise x, s)).
Proof.
  split.
  - intros e He. exists (sent s e). rewrite send_run, He.
    split; [done |]. split; [done |]. split; [done |]. split; [done |].
    cbn. apply lookup_insert_eq.
  - intros x Hx. by rewrite send_run, Hx.
Qed.

Lemma display_run s flow :
  display flow s
  = match rendering get_colour (Handler.self _ s) flow with
    | Ok e =>
        (Ok (), match Handler.message _ (Handler.self _ s) with
                | None => posted s e
                | Some stored => edited s stored e
                end)
    | Raise x => (Raise x, s)
    | OutOfFuel => (OutOfFuel, s)
    end.
Proof.
  unfold Handler.display. py_step.
  destruct (Handler.message _ (Handler.self _ s)) as [stored |].
  - rewrite bind_unfold. unfold bind at 1. rewrite retrieve_embed_run.
    by destruct (rendering _ _ _).
  - rewrite bind_unfold. unfold bind at 1. rewrite send_run.
    by destruct (rendering _ _ _).
Qed.

(** X3: a [display] that does not return changes nothing: no message is
    posted or edited and the stored message stays what it was, so that a
    first [display] that raises leaves the next one to post. *)
Theorem display_fails_without_effect s flow :
  (display flow s).1 = Ok () ∨ (display flow s).2 = s.
Proof. rewrite display_run. destruct (rendering _ _ _); [by left | by right ..]. Qed.

(** X4: after a [display] that returns, the handler stores a message and the
    platform shows the render of the flow for it: a first [display] creates
    the message with that embed and no reaction; a later one replaces the
    embed of the stored message and keeps its reactions. *)
Theorem display_shows_render s s' flow :
  display flow s = (Ok (), s') →
  ∃ e, rendering get_colour (Handler.self _ s) flow = Ok e ∧
    match Handler.message _ (Handler.self _ s) with
    | None =>
        Handler.message _ (Handler.self _ s')
        = Some (next_message_of (Handler.bot _ (Handler.self _ s))
                  (Handler.ctx _ (Handler.self _ s)) (Handler.world _ s)) ∧
        board (Handler.world _ s') !! next_id (Handler.world _ s)
        = Some {| shown_embed := Some e; shown_reactions := [] |}
    | Some stored =>
        Handler.message _ (Handler.self _ s') = Some stored ∧
        board (Handler.world _ s') !! m_id stored
        = set_embed e <$> board (Handler.world _ s) !! m_id stored
    end.
Proof.
  rewrite display_run.
  destruct (rendering _ _ _) as [e | x |] eqn:He; intros [= <-].
  exists e. split; [done |].
  destruct (Handler.message _ (Handler.self _ s)) as [stored |] eqn:Hm.
  - split; [done |]. cbn. apply lookup_alter_eq.
  - split; [done |]. cbn. apply lookup_insert_eq.
Qed.
End SendDisplay.

(** The flow A is posted from the sample handler as message 2, and a flow
    that the pages lack posts nothing. *)
Lemma send_posts_every_time_witness :
  (∃ s', Handler.send unit sample_colours "A" (sample_handler discord_bot [])
         = (Ok {| m_id := 2; author := 0; channel := 3; content := "" |}, s') ∧
         trace (Handler.world _ s') = [channel_send 3 (sample_embed "First")]) ∧
  Handler.send unit sample_colours "nowhere" (sample_handler discord_bot [])
  = (Raise KeyError, sample_handler discord_bot []).
Proof.
  destruct (send_posts_every_time sample_colours (sample_handler discord_bot []) "A")
    as [Hposts _].
  destruct (send_posts_every_time sample_colours (sample_handler discord_bot []) "nowhere")
    as [_ Hraises].
  split; [| exact (Hraises KeyError eq_refl)].
  destruct (Hposts (sample_embed "First") eq_refl) as (s' & Hrun & _ & _ & Htrace & _).
  exists s'. split; [exact Hrun | exact Htrace].
Defined.

(** A second [display] on the sample handler shows B for message 2. *)
Lemma display_shows_render_witness :
  ∃ e, rendering sample_colours
         (Handler.self _ (posted (sample_handler discord_bot []) (sample_embed "First"))) "B"
       = Ok e.
Proof.
  destruct (display_shows_render sample_colours
              (posted (sample_handler discord_bot []) (sample_embed "First"))
              (edited (posted (sample_handler discord_bot []) (sample_embed "First"))
                 {| m_id := 2; author := 0; channel := 3; content := "" |}
                 (sample_embed "Second"))
              "B" eq_refl) as (e & He & _).
  by exists e.
Defined.

(** ** [display]: one message, then edits of it *)

Section DisplayOnce.
Context {Player : Type} (get_colour : string → option Colour).
Implicit Types (s : Handler.Session Player).

Local Abbreviation retrieve_embed := (Handler.retrieve_embed Player get_colour).
Local Abbreviation display := (Handler.display Player get_colour).

Lemma later_edits_self s s' (stored : Message) (flows : list string) :
  Handler.self _ s = Handler.self _ s' →
  later_edits get_colour s stored flows = later_edits get_colour s' stored flows.
Proof.
  intros Hself. unfold later_edits.
  induction flows as [| flow flows IH]; [done |]. cbn [omap list_omap].
  rewrite !retrieve_embed_run. cbn [fst]. by rewrite Hself, IH.
Qed.

Lemma displays_after_first (flows : list string) s (stored : Message) :
  Handler.message _ (Handler.self _ s) = Some stored →
  Handler.self _ (displays get_colour flows s) = Handler.self _ s ∧
  next_id (Handler.world _ (displays get_colour flows s)) = next_id (Handler.world _ s) ∧
  trace (Handler.world _ (displays get_colour flows s))
  = trace (Handler.world _ s) ++ later_edits get_colour s stored flows.
Proof.
  revert s. induction flows as [| flow flows IH]; intros s Hstored.
  - cbn. by rewrite app_nil_r.
  - change (displays get_colour (flow :: flows) s)
      with (displays get_colour flows (display flow s).2).
    unfold later_edits. cbn [omap list_omap]. fold (later_edits get_colour s stored flows).
    rewrite display_run, retrieve_embed_run, Hstored. cbn [fst].
    destruct (rendering get_colour (Handler.self _ s) flow) as [e | x |]; cbn [snd];
      [| by apply IH ..].
    destruct (IH (edited s stored e) Hstored) as (-> & -> & ->).
    rewrite (later_edits_self (edited s stored e) s) by done.
    cbn. by rewrite <- app_assoc.
Qed.

(** C7: on a handler that has stored no message, [display] of a flow that
    renders returns, having posted exactly one new message, the render of
    the flow, and stored it.  Every later [display], of any flow, keeps that
    stored message and creates no further message: it performs one edit of
    the stored message when its flow renders and nothing when it does not,
    so that the calls after the first add to the trace exactly these edits,
    in order.  In particular a second [display] of a flow that renders
    returns, and the calls of the two are one send followed by one edit of
    the message sent. *)
Theorem display_posts_once s (f1 : string) (e1 : Embed) :
  Handler.message _ (Handler.self _ s) = None →
  (retrieve_embed f1 s).1 = Ok e1 →
  let sent :=
    next_message_of (Handler.bot _ (Handler.self _ s)) (Handler.ctx _ (Handler.self _ s))
      (Handler.world _ s) in
  let post := channel_send (channel (ctx_message (Handler.ctx _ (Handler.self _ s)))) e1 in
  let s1 := posted s e1 in
  display f1 s = (Ok (), s1) ∧
  Handler.message _ (Handler.self _ s1) = Some sent ∧
  next_id (Handler.world _ s1) = S (next_id (Handler.world _ s)) ∧
  trace (Handler.world _ s1) = trace (Handler.world _ s) ++ [post] ∧
  (∀ flows,
     Handler.message _ (Handler.self _ (displays get_colour flows s1)) = Some sent ∧
     next_id (Handler.world _ (displays get_colour flows s1))
     = S (next_id (Handler.world _ s)) ∧
     trace (Handler.world _ (displays get_colour flows s1))
     = trace (Handler.world _ s) ++ post :: later_edits get_colour s1 sent flows) ∧
  (∀ f2 e2, (retrieve_embed f2 s1).1 = Ok e2 →
     display f2 s1 = (Ok (), edited s1 sent e2) ∧
     trace (Handler.world _ (edited s1 sent e2))
     = trace (Handler.world _ s) ++ [post; message_edit (m_id sent) e2]).
Proof.
  intros Hnone Hrender sent post s1.
  rewrite retrieve_embed_run in Hrender. cbn [fst] in Hrender.
  split; [by rewrite display_run, Hrender, Hnone |].
  split; [done |]. split; [done |]. split; [done |]. split.
  - intros flows.
    destruct (displays_after_first flows s1 sent eq_refl) as (-> & -> & ->).
    split; [done |]. split; [done |]. cbn. by rewrite <- app_assoc.
  - intros f2 e2 Hsecond. rewrite retrieve_embed_run in Hsecond. cbn [fst] in Hsecond.
    split; [by rewrite display_run, Hsecond |]. cbn. by rewrite <- app_assoc.
Qed.
End DisplayOnce.

(** Two calls on the sample handler: A is posted as message 2, then B is an
    edit of message 2; a third call, of a flow that the pages lack, adds
    nothing. *)
Lemma display_posts_once_witness :
  Handler.display unit sample_colours "A" (sample_handler discord_bot [])
  = (Ok (), posted (sample_handler discord_bot []) (sample_embed "First")) ∧
  Handler.display unit sample_colours "B"
    (posted (sample_handler discord_bot []) (sample_embed "First"))
  = (Ok (),
     edited (posted (sample_handler discord_bot []) (sample_embed "First"))
       {| m_id := 2; author := 0; channel := 3; content := "" |} (sample_embed "Second")) ∧
  trace (Handler.world _
           (displays sample_colours ["B"; "nowhere"]
              (posted (sample_handler discord_bot []) (sample_embed "First"))))
  = [channel_send 3 (sample_embed "First"); message_edit 2 (sample_embed "Second")].
Proof.
  destruct (display_posts_once sample_colours (sample_handler discord_bot []) "A"
              (sample_embed "First") eq_refl eq_refl)
    as (Hfirst & _ & _ & _ & Hlater & Hsecond).
  split; [exact Hfirst |].
  split; [exact (proj1 (Hsecond "B" (sample_embed "Second") eq_refl)) |].
  destruct (Hlater ["B"; "nowhere"]) as (_ & _ & Htrace).
  etrans; [exact Htrace | reflexivity].
Defined.

(** ** [get_message] and the events it passes over *)

(** At the ends of the 60 seconds: a message that arrives at the instant of
    the deadline is returned, one that arrives a second later is not. *)
Example get_message_at_deadline :
  (Handler.get_message unit
     (sample_handler discord_bot
        [(60%N, on_message {| m_id := 5; author := 7; channel := 3; content := "just" |})])).1
  = Ok (Some "just") ∧
  (Handler.get_message unit
     (sample_handler discord_bot
        [(61%N, on_message {| m_id := 5; author := 7; channel := 3; content := "late" |})])).1
  = Raise TimeoutError.
Proof. by vm_compute. Qed.

(** Of two reactions dispatched at the same instant the loop handles the
    first; the second arrives before the loop waits again and is lost. *)
Example loop_same_instant :
  let end_ :=
    Menu.loop no_user_call 5
      (sample_menu discord_bot [(":one:", page_binding "A"); (":two:", page_binding "B")]
         [(4%N, on_reaction_add {| emoji := ":one:"; r_message := 2 |} 7);
          (4%N, on_reaction_add {| emoji := ":two:"; r_message := 2 |} 7)]) in
  end_.1 = Raise TimeoutError ∧
  trace (Menu.world end_.2)
  = [message_edit 2 (sample_embed "First");
     reaction_remove {| emoji := ":one:"; r_message := 2 |} 7] ∧
  clock (Menu.world end_.2) = 64%N.
Proof. by vm_compute. Qed.


Lemma next_event_skipped now deadline ev_name chk pending t ev rest :
  next_event now deadline ev_name chk pending = Some (t, ev, rest) →
  ∃ skipped, pending = skipped ++ (t, ev) :: rest ∧
    Forall (λ x, (x.1 ≤ now)%N ∨ event_name x.2 ≠ ev_name ∨ chk x.2 = false) skipped.
Proof.
  induction pending as [| [t' ev'] pending IH]; cbn; [done |].
  destruct (N.ltb_spec deadline t') as [Hlate | Hearly]; [done |].
  destruct (N.ltb_spec now t') as [Hnow | Hstale]; cbn.
  - destruct (bool_decide (event_name ev' = ev_name)) eqn:Hname; cbn.
    + destruct (chk ev') eqn:Hchk.
      * intros [= -> -> ->]. by exists [].
      * intros H. destruct (IH H) as (skipped & -> & Hall).
        exists ((t', ev') :: skipped). split; [done |].
        constructor; [by right; right | done].
    + intros H. destruct (IH H) as (skipped & -> & Hall).
      exists ((t', ev') :: skipped). split; [done |].
      apply bool_decide_eq_false in Hname. constructor; [by right; left | done].
  - intros H. destruct (IH H) as (skipped & -> & Hall).
    exists ((t', ev') :: skipped). split; [done |].
    constructor; [by left | done].
Qed.

Section GetMessageMore.
Context {Player : Type}.
Implicit Types (s : Handler.Session Player).

(** X5: whatever it returns or raises, [get_message] leaves the handler and
    the messages of the platform as they were, performs no call, and comes
    back at most 60 seconds after it was called. *)
Theorem get_message_only_waits s :
  let s' := (Handler.get_message Player s).2 in
  Handler.self _ s' = Handler.self _ s ∧
  board (Handler.world _ s') = board (Handler.world _ s) ∧
  trace (Handler.world _ s') = trace (Handler.world _ s) ∧
  next_id (Handler.world _ s') = next_id (Handler.world _ s) ∧
  (clock (Handler.world _ s) ≤ clock (Handler.world _ s')
   ≤ clock (Handler.world _ s) + 60)%N.
Proof.
  unfold Handler.get_message. rewrite bind_get, bind_unfold.
  unfold bind, Handler.lift, wait_for.
  destruct (next_event _ _ _ _ _) as [[[t ev] rest] |] eqn:Hnext.
  - apply next_event_Some in Hnext as (_ & _ & Ht & _).
    destruct ev; cbn; (do 4 (split; [done |])); lia.
  - destruct (on_timeout _); cbn; (do 4 (split; [done |])); lia.
Qed.

(** X6: when [get_message] returns a text, it is the content of a message
    event of the inbox that arrived no earlier than the call and no later
    than 60 seconds after it, written by the author of the invoking message
    in its channel; every event of the inbox before it arrived no later than
    the call, or is not a message, or is a message of another author or
    channel; and the events after it are left in the inbox. *)
Theorem get_message_returns_first s s' text :
  Handler.get_message Player s = (Ok (Some text), s') →
  let command := ctx_message (Handler.ctx _ (Handler.self _ s)) in
  ∃ t msg skipped,
    inbox (Handler.world _ s) = skipped ++ (t, on_message msg) :: inbox (Handler.world _ s') ∧
    content msg = text ∧ author msg = author command ∧ channel msg = channel command ∧
    (clock (Handler.world _ s) ≤ t ≤ clock (Handler.world _ s) + 60)%N ∧
    Forall (λ x, (x.1 ≤ clock (Handler.world _ s))%N ∨
                 match x.2 with
                 | on_message m => author m ≠ author command ∨ channel m ≠ channel command
                 | on_reaction_add _ _ => True
                 end) skipped.
Proof.
  unfold Handler.get_message. rewrite bind_get, bind_unfold.
  unfold bind, Handler.lift, wait_for.
  destruct (next_event _ _ _ _ _) as [[[t ev] rest] |] eqn:Hnext; cycle 1.
  { by destruct (on_timeout _). }
  destruct ev as [r u | msg]; [done |]. cbn. unfold ret. intros [= <- <-]. cbn.
  destruct (next_event_Some _ _ _ _ _ _ _ _ Hnext) as (Hchk & _ & Ht & _).
  destruct (next_event_skipped _ _ _ _ _ _ _ _ Hnext) as (skipped & Hinbox & Hall).
  apply andb_prop in Hchk as [Hauthor Hchannel].
  apply bool_decide_eq_true in Hauthor, Hchannel.
  exists t, msg, skipped. do 4 (split; [done |]). split; [lia |].
  eapply Forall_impl; [exact Hall |]. intros [t' ev'] [Hstale | [Hname | Hrefused]]; cbn in *.
  - by left.
  - right. by destruct ev'.
  - right. destruct ev' as [r' u' | m']; [done |]. cbn in Hrefused.
    apply andb_false_iff in Hrefused as [H | H]; apply bool_decide_eq_false in H; tauto.
Qed.
End GetMessageMore.

(** On the sample events the third message is returned, after two that the
    check refuses. *)
Lemma get_message_returns_first_witness :
  ∃ t msg skipped,
    prompt_events = skipped ++ [(t, on_message msg)] ∧ content msg = "yes" ∧ length skipped = 2.
Proof.
  destruct (get_message_returns_first (sample_handler discord_bot prompt_events)
              {| Handler.self := Handler.self _ (sample_handler discord_bot prompt_events);
                 Handler.world :=
                   {| clock := 30; inbox := []; board := board (sample_world []);
                      next_id := 2; trace := []; unawaited := [] |} |}
              "yes" eq_refl) as (t & msg & skipped & Hinbox & Htext & _).
  exists t, msg, skipped. split; [exact Hinbox |]. split; [exact Htext |].
  apply (f_equal length) in Hinbox. rewrite length_app in Hinbox. cbn in Hinbox. lia.
Defined.

(** ** [retrieve_menu] and its walk *)

Lemma dict_keys_set {K V} `{EqDecision K} (d : dict K V) (k : K) (v : V) :
  dict_keys (dict_set d k v)
  = if bool_decide (k ∈ dict_keys d) then dict_keys d else dict_keys d ++ [k].
Proof.
  case_bool_decide as Hin; [| by apply dict_keys_set_fresh].
  unfold dict_keys in *. induction d as [| [k' v'] d IH]; cbn in *.
  - by apply elem_of_nil in Hin.
  - destruct (decide (k = k')) as [-> | Hne]; cbn; [done |].
    apply elem_of_cons in Hin as [? | Hin]; [done |]. by rewrite IH.
Qed.

Section Walk.
Context {Player : Type} (get_colour : string → option Colour).
Implicit Types (s : Handler.Session Player) (menu : dict string Embed).

Local Abbreviation follow := (Handler.follow Player get_colour).
Local Abbreviation retrieve_menu := (Handler.retrieve_menu Player get_colour).

Lemma follow_run s flow next menu :
  follow (Handler.Ptr flow next) menu s
  = match rendering get_colour (Handler.self _ s) flow with
    | Ok e =>
        match next with
        | None => (Ok (dict_set menu flow e), s)
        | Some q => follow q (dict_set menu flow e) s
        end
    | Raise x => (Raise x, s)
    | OutOfFuel => (OutOfFuel, s)
    end.
Proof.
  cbn [Handler.follow]. rewrite bind_unfold. unfold bind at 1.
  rewrite retrieve_embed_run.
  destruct (rendering _ _ _); [| done ..]. by destruct next.
Qed.

(** X7: [retrieve_menu] returns no menu, whatever the handler and the flow:
    when the flow renders it raises [TypeError], otherwise it raises the
    error of the render; and it changes nothing. *)
Theorem retrieve_menu_always_raises s flow_type :
  (∀ e, rendering get_colour (Handler.self _ s) flow_type = Ok e →
     retrieve_menu flow_type s = (Raise TypeError, s)) ∧
  (∀ x, rendering get_colour (Handler.self _ s) flow_type = Raise x →
     retrieve_menu flow_type s = (Raise x, s)).
Proof.
  unfold Handler.retrieve_menu. split.
  - intros e He. py_step. rewrite bind_unfold. unfold bind at 1.
    by rewrite retrieve_embed_run, He.
  - intros x Hx. py_step. rewrite bind_unfold. unfold bind at 1.
    by rewrite retrieve_embed_run, Hx.
Qed.

(** X8: the walk of [retrieve_menu] along a pointer returns when every flow
    of the chain renders; the menu it returns then maps every flow of the
    chain to its render, keeps every other entry, the keys it started from
    first and in their order, and the handler and the platform are as
    before. *)
Theorem follow_collects_chain s (p : Handler.Pointer) menu :
  ((∀ flow, flow ∈ chain p → ∃ e, rendering get_colour (Handler.self _ s) flow = Ok e) →
   ∃ menu', follow p menu s = (Ok menu', s)) ∧
  (∀ menu' s', follow p menu s = (Ok menu', s') →
     s' = s ∧
     (∀ flow, flow ∈ chain p →
        ∃ e, rendering get_colour (Handler.self _ s) flow = Ok e ∧
             dict_get menu' flow = Some e) ∧
     (∀ flow, flow ∉ chain p → dict_get menu' flow = dict_get menu flow) ∧
     dict_keys menu `prefix_of` dict_keys menu').
Proof.
  revert menu. induction p as [flow | flow q IH] using Pointer_chain_ind; intros menu.
  - rewrite follow_run. cbn [chain]. split.
    + intros Hall. destruct (Hall flow) as [e ->]; [by left |]. by eexists.
    + intros menu' s'. destruct (rendering _ _ flow) as [e | x |] eqn:He; intros [= <- <-].
      split; [done |]. split; [| split].
      * intros f ->%list_elem_of_singleton. exists e. by rewrite dict_get_set_eq.
      * intros f Hf%not_elem_of_cons. apply dict_get_set_ne. by intros ->; destruct Hf.
      * rewrite dict_keys_set. case_bool_decide; [done | by apply prefix_app_r].
  - rewrite follow_run. cbn [chain]. split.
    + intros Hall. destruct (Hall flow) as [e ->]; [by left |].
      apply IH. intros f Hf. apply Hall. by right.
    + intros menu' s'. destruct (rendering _ _ flow) as [e | x |] eqn:He; [| done ..].
      intros Hq. destruct (IH (dict_set menu flow e)) as [_ IHq].
      destruct (IHq menu' s' Hq) as (-> & Hin & Hout & Hpre).
      split; [done |]. split; [| split].
      * intros f Hf. destruct (decide (f ∈ chain q)) as [Hfq | Hfq]; [by apply Hin |].
        apply elem_of_cons in Hf as [-> | ?]; [| done].
        exists e. split; [done |]. rewrite Hout by done. apply dict_get_set_eq.
      * intros f Hf%not_elem_of_cons. rewrite Hout by tauto.
        apply dict_get_set_ne. by intros ->; destruct Hf.
      * etrans; [| exact Hpre]. rewrite dict_keys_set.
        case_bool_decide; [done | by apply prefix_app_r].
Qed.
End Walk.

(** Both cases on the sample page source. *)
Lemma retrieve_menu_always_raises_witness :
  Handler.retrieve_menu unit sample_colours "B" (sample_handler discord_bot [])
  = (Raise TypeError, sample_handler discord_bot []) ∧
  Handler.retrieve_menu unit sample_colours "nowhere" (sample_handler discord_bot [])
  = (Raise KeyError, sample_handler discord_bot []).
Proof.
  split.
  - exact (proj1 (retrieve_menu_always_raises sample_colours
                    (sample_handler discord_bot []) "B") (sample_embed "Second") eq_refl).
  - exact (proj2 (retrieve_menu_always_raises sample_colours
                    (sample_handler discord_bot []) "nowhere") KeyError eq_refl).
Defined.

(** The chain A, B of the sample page source, walked from a menu with MAIN. *)
Lemma follow_collects_chain_witness :
  ∃ menu',
    Handler.follow unit sample_colours (Handler.Ptr "A" (Some (Handler.Ptr "B" None)))
      [("MAIN", sample_embed "Main")] (sample_handler discord_bot [])
    = (Ok menu', sample_handler discord_bot []) ∧
    dict_get menu' "B" = Some (sample_embed "Second") ∧
    dict_get menu' "MAIN" = Some (sample_embed "Main").
Proof.
  destruct (follow_collects_chain sample_colours (sample_handler discord_bot [])
              (Handler.Ptr "A" (Some (Handler.Ptr "B" None)))
              [("MAIN", sample_embed "Main")]) as [Htotal Hmenu].
  destruct Htotal as [menu' Hrun].
  { intros flow Hflow. apply elem_of_cons in Hflow as [-> | Hflow]; [by eexists |].
    apply list_elem_of_singleton in Hflow as ->. by eexists. }
  exists menu'. split; [exact Hrun |].
  destruct (Hmenu menu' _ Hrun) as (_ & Hin & Hout & _). split.
  - destruct (Hin "B") as (e & He & Hget); [by right; left |].
    rewrite Hget. f_equal. by injection He as <-.
  - rewrite Hout; [done |]. by intros [[=] | [[=] | []%elem_of_nil]%elem_of_cons]%elem_of_cons.
Defined.

(** ** Bindings and reactions of a menu *)

(** X9: [attach_function] binds the symbol to the function and its
    arguments, replacing what the symbol was bound to and leaving the other
    bindings alone; a symbol that was bound keeps its place among the keys,
    a new one comes last, so that no symbol appears twice; the platform is
    not touched. *)
Theorem attach_function_binds (s : Menu.Session) (reaction : Emoji) (function : Menu.Func)
    (args : list Menu.Arg) :
  ∃ s', Menu.attach_function reaction function args s = (Ok (), s') ∧
    Menu.world s' = Menu.world s ∧
    Menu.pages (Menu.self s') = Menu.pages (Menu.self s) ∧
    Menu.message (Menu.self s') = Menu.message (Menu.self s) ∧
    Menu.exit (Menu.self s') = Menu.exit (Menu.self s) ∧
    (∀ e, dict_get (Menu.reactions (Menu.self s')) e
          = if decide (e = reaction) then Some (function, args)
            else dict_get (Menu.reactions (Menu.self s)) e) ∧
    dict_keys (Menu.reactions (Menu.self s'))
    = if bool_decide (reaction ∈ dict_keys (Menu.reactions (Menu.self s)))
      then dict_keys (Menu.reactions (Menu.self s))
      else dict_keys (Menu.reactions (Menu.self s)) ++ [reaction].
Proof.
  eexists. split; [reflexivity |]. cbn. do 4 (split; [done |]). split.
  - intros e. destruct (decide (e = reaction)) as [-> | Hne].
    + apply dict_get_set_eq.
    + by apply dict_get_set_ne.
  - apply dict_keys_set.
Qed.

Lemma for_each_add_reaction (b : Bot) (m : MsgId) (keys : list Emoji) (s : Menu.Session) :
  for_each keys (λ e, Menu.lift (await b (message_add_reaction m e));; ret ()) s
  = (Ok (), reacted b m keys s).
Proof.
  revert s. induction keys as [| e keys IH]; intros s; [done |].
  cbn [for_each]. change (bind ?x ?k ?s) with ((x ≫= k) s). py_step.
  erewrite bind_Ok by reflexivity. py_step. by rewrite IH.
Qed.

Lemma reacted_frame (b : Bot) (m : MsgId) (keys : list Emoji) (s : Menu.Session) :
  Menu.self (reacted b m keys s) = Menu.self s ∧
  clock (Menu.world (reacted b m keys s)) = clock (Menu.world s) ∧
  inbox (Menu.world (reacted b m keys s)) = inbox (Menu.world s) ∧
  next_id (Menu.world (reacted b m keys s)) = next_id (Menu.world s) ∧
  trace (Menu.world (reacted b m keys s))
  = trace (Menu.world s) ++ (message_add_reaction m <$> keys).
Proof.
  revert s. induction keys as [| e keys IH]; intros s.
  - cbn. by rewrite app_nil_r.
  - change (reacted b m (e :: keys) s)
      with (reacted b m keys (awaited b (message_add_reaction m e) s)).
    destruct (IH (awaited b (message_add_reaction m e) s)) as (-> & -> & -> & -> & ->).
    cbn. by rewrite <- app_assoc.
Qed.

Lemma reacted_board (b : Bot) (m : MsgId) (keys : list Emoji) (s : Menu.Session) :
  board (Menu.world (reacted b m keys s))
  = alter (set_reactions (λ l, l ++ ((λ e, (e, bot_user b)) <$> keys))) m
      (board (Menu.world s)).
Proof.
  revert s. induction keys as [| e keys IH]; intros s.
  - cbn. symmetry. apply alter_id. intros [shown l] _.
    unfold set_reactions. cbn. by rewrite app_nil_r.
  - change (reacted b m (e :: keys) s)
      with (reacted b m keys (awaited b (message_add_reaction m e) s)).
    rewrite IH. cbn. rewrite alter_alter_eq. apply alter_ext.
    intros [shown l] _. unfold set_reactions. cbn. by rewrite <- app_assoc.
Qed.

(** X10: [attach_reactions] adds to the message one reaction of the client
    for every bound symbol, in the order of the bindings, then sleeps two
    seconds: these are the only calls, the clock moves by 2, and the menu
    and the other messages are as before. *)
Theorem attach_reactions_adds_bound (s : Menu.Session) (msg : Message) :
  let b := Menu.bot (Menu.self s) in
  let keys := dict_keys (Menu.reactions (Menu.self s)) in
  ∃ s', Menu.attach_reactions msg s = (Ok (), s') ∧
    Menu.self s' = Menu.self s ∧
    trace (Menu.world s')
    = trace (Menu.world s) ++ (message_add_reaction (m_id msg) <$> keys)
      ++ [asyncio_sleep 2] ∧
    clock (Menu.world s') = (clock (Menu.world s) + 2)%N ∧
    inbox (Menu.world s') = inbox (Menu.world s) ∧
    board (Menu.world s')
    = alter (set_reactions (λ l, l ++ ((λ e, (e, bot_user b)) <$> keys))) (m_id msg)
        (board (Menu.world s)).
Proof.
  intros b keys. eexists. split.
  - unfold Menu.attach_reactions. py_step.
    rewrite (bind_Ok _ _ _ _ _ (for_each_add_reaction b (m_id msg) keys s)).
    erewrite bind_Ok by reflexivity. reflexivity.
  - destruct (reacted_frame b (m_id msg) keys s) as (Hself & Hclock & Hinbox & _ & Htrace).
    cbn. rewrite Hself, Hclock, Hinbox, Htrace, reacted_board, app_assoc. done.
Qed.

(** ** What [attach_numbers] reads of the table of symbols *)

Lemma for_each_ext {S A} (l : list A) (f g : A → Py S unit) :
  (∀ x, x ∈ l → ∀ s, f x s = g x s) → ∀ s, for_each l f s = for_each l g s.
Proof.
  induction l as [| x l IH]; intros Hfg s; [done |]. cbn [for_each]. unfold bind.
  rewrite (Hfg x) by left. destruct (g x s) as [[[] | e |] s1]; [| done ..].
  apply IH. intros y Hy. apply Hfg. by right.
Qed.

Lemma elem_of_zip_seq {A} (keys : list A) (n m : nat) (key : A) (i : nat) :
  (key, i) ∈ zip keys (seq n m) → n ≤ i < n + (m `min` length keys).
Proof.
  intros (k & Hk)%list_elem_of_lookup.
  apply lookup_zip_with_Some in Hk as (key' & i' & [= <- <-] & Hkey & Hi).
  apply lookup_seq in Hi as [-> Hlt]. apply lookup_lt_Some in Hkey. lia.
Qed.

Section AttachNumbersTable.
Variable PAGES : nat → option Emoji.

(** X11: [attach_numbers] reads the table of symbols at the numbers 1 to 9
    only, and no further than the number of pages: two tables that agree
    there give the same bindings; with no page at all the table is not read
    and nothing is bound. *)
Theorem attach_numbers_reads_1_to_9 (PAGES' : nat → option Emoji) (s : Menu.Session) :
  (∀ i : nat, (1 ≤ i ≤ 9 `min` length (Menu.pages (Menu.self s)))%nat → PAGES i = PAGES' i) →
  Menu.attach_numbers PAGES s = Menu.attach_numbers PAGES' s.
Proof.
  intros Hsame. unfold Menu.attach_numbers. rewrite !bind_get.
  apply for_each_ext. intros [page i] Hin s0.
  apply elem_of_zip_seq in Hin. unfold dict_keys in Hin. rewrite length_fmap in Hin.
  rewrite Hsame by lia. done.
Qed.

Lemma for_each_missing_symbol (symbols : list Emoji) (keys : list string) (n m : nat)
    (s : Menu.Session) :
  length symbols < m → length symbols < length keys →
  (∀ k e, symbols !! k = Some e → PAGES (n + k) = Some e) →
  PAGES (n + length symbols) = None →
  for_each (zip keys (seq n m))
    (λ '(page, i),
       e ← of_option LookupError (PAGES i);
       Menu.update (Menu.set_reaction e (page_binding page))) s
  = (Raise LookupError,
     with_reactions (bind_pages (Menu.reactions (Menu.self s)) (zip keys symbols)) s).
Proof.
  revert keys n m s.
  induction symbols as [| e symbols IH]; intros [| key keys] n [| m] s Hm Hkeys Hsym Hnone;
    cbn in Hm, Hkeys; try lia.
  - cbn [seq zip zip_with for_each]. change (bind ?x ?k ?s) with ((x ≫= k) s).
    rewrite Nat.add_0_r in Hnone. py_step. rewrite Hnone. cbn [of_option].
    rewrite bind_raise. by destruct s as [[] ?].
  - cbn [seq zip zip_with for_each]. change (bind ?x ?k ?s) with ((x ≫= k) s).
    py_step. rewrite <- (Nat.add_0_r n) at 1. rewrite (Hsym 0 e eq_refl).
    cbn [of_option]. py_step. rewrite bind_update.
    rewrite (IH keys (S n) m); [done | lia | lia | |].
    + intros k e' Hk. rewrite Nat.add_succ_comm. by apply (Hsym (S k)).
    + rewrite Nat.add_succ_comm. exact Hnone.
Qed.

(** X12: when the table has a symbol for the numbers 1 to j and none for
    j + 1, with j below 9 and below the number of pages, [attach_numbers]
    raises the lookup error of the table after it has bound the first j
    pages: these bindings stay. *)
Theorem attach_numbers_missing_symbol (symbols : list Emoji) (s : Menu.Session) :
  length symbols < 9 →
  length symbols < length (Menu.pages (Menu.self s)) →
  (∀ k e, symbols !! k = Some e → PAGES (S k) = Some e) →
  PAGES (S (length symbols)) = None →
  Menu.attach_numbers PAGES s
  = (Raise LookupError,
     with_reactions
       (bind_pages (Menu.reactions (Menu.self s))
          (zip (dict_keys (Menu.pages (Menu.self s))) symbols)) s).
Proof.
  intros H9 Hkeys Hsym Hnone. unfold Menu.attach_numbers. rewrite bind_get.
  apply for_each_missing_symbol; [done | | done | done].
  unfold dict_keys. by rewrite length_fmap.
Qed.
End AttachNumbersTable.

(** A table that differs from the sample one at 0 and from 10 on binds the
    same. *)
Lemma attach_numbers_reads_1_to_9_witness :
  Menu.attach_numbers sample_PAGES eleven_menu
  = Menu.attach_numbers
      (λ i : nat, if bool_decide (1 ≤ i ≤ 9)%nat then sample_PAGES i else Some ":zero:") eleven_menu.
Proof.
  apply (attach_numbers_reads_1_to_9 sample_PAGES). intros i Hi. cbn in Hi.
  by rewrite bool_decide_eq_true_2 by lia.
Defined.

(** With two symbols and the three pages of the sample menu, MAIN and A are
    bound and the third lookup raises. *)
Lemma attach_numbers_missing_symbol_witness :
  ∃ s', Menu.attach_numbers short_PAGES (sample_menu discord_bot [] []) = (Raise LookupError, s') ∧
        Menu.reactions (Menu.self s')
        = [(":one:", page_binding "MAIN"); (":two:", page_binding "A")].
Proof.
  eexists. split.
  - apply (attach_numbers_missing_symbol short_PAGES [":one:"; ":two:"]); cbn; [lia | lia | | done].
    intros [| [| k]] e; cbn; by intros [= <-].
  - reflexivity.
Defined.

(** ** [deploy_menu]: posting the menu, and the turns of its loop *)

Lemma change_page_cases (page : Menu.Arg) (s : Menu.Session) :
  (∃ x, Menu.change_page page s = (Raise x, s)) ∨
  (∃ live embed,
     Menu.change_page page s
     = (Ok (), awaited (Menu.bot (Menu.self s)) (message_edit (m_id live) embed) s)).
Proof.
  unfold Menu.change_page. rewrite bind_get.
  destruct (Menu.message (Menu.self s)) as [live |]; [| left; by eexists].
  destruct page as [| key | o]; try (left; by eexists).
  unfold subscript. destruct (dict_get _ key) as [embed |]; [| left; by eexists].
  right. by exists live, embed.
Qed.

Section Deploy.
Variable user_call : nat → list Menu.Arg → Py Menu.Session unit.

Lemma deploy_menu_run (s : Menu.Session) (fuel : nat) (embed : Embed) :
  dict_get (Menu.pages (Menu.self s)) "MAIN" = Some embed →
  Menu.deploy_menu user_call fuel s
  = Menu.loop user_call fuel
      (reacted (Menu.bot (Menu.self s)) (next_id (Menu.world s))
         (dict_keys (Menu.reactions (Menu.self s))) (deployed embed s)).
Proof.
  intros Hmain. unfold Menu.deploy_menu. py_step. unfold subscript. rewrite Hmain.
  cbn [of_option]. py_step. erewrite bind_Ok by reflexivity. cbv beta iota.
  rewrite bind_update, bind_get.
  erewrite bind_Ok; [reflexivity |]. apply for_each_add_reaction.
Qed.

(** X13: without a page MAIN, [deploy_menu] raises [KeyError] before it
    posts anything: the menu and the platform are as before. *)
Theorem deploy_menu_without_MAIN (s : Menu.Session) (fuel : nat) :
  dict_get (Menu.pages (Menu.self s)) "MAIN" = None →
  Menu.deploy_menu user_call fuel s = (Raise KeyError, s).
Proof.
  intros Hmain. unfold Menu.deploy_menu. py_step. unfold subscript. by rewrite Hmain.
Qed.

(** X14: with a page MAIN, [deploy_menu] posts that page in the channel of
    the invoking message, stores the message that the platform creates as
    the live message, adds to it one reaction of the client for every bound
    symbol, in the order of the bindings, and goes on as its loop from there:
    before the loop, these are the only calls, the live message shows MAIN
    with these reactions, and bindings, pages, flag, clock and events are as
    they were. *)
Theorem deploy_menu_posts_MAIN (s : Menu.Session) (fuel : nat) (embed : Embed) :
  dict_get (Menu.pages (Menu.self s)) "MAIN" = Some embed →
  let b := Menu.bot (Menu.self s) in
  let keys := dict_keys (Menu.reactions (Menu.self s)) in
  let live := next_message_of b (Menu.ctx (Menu.self s)) (Menu.world s) in
  ∃ s0, Menu.deploy_menu user_call fuel s = Menu.loop user_call fuel s0 ∧
    Menu.self s0 = Menu.set_message live (Menu.self s) ∧
    trace (Menu.world s0)
    = trace (Menu.world s)
      ++ channel_send (channel (ctx_message (Menu.ctx (Menu.self s)))) embed
         :: (message_add_reaction (m_id live) <$> keys) ∧
    board (Menu.world s0) !! m_id live
    = Some {| shown_embed := Some embed;
              shown_reactions := (λ e, (e, bot_user b)) <$> keys |} ∧
    clock (Menu.world s0) = clock (Menu.world s) ∧
    inbox (Menu.world s0) = inbox (Menu.world s).
Proof.
  intros Hmain b keys live. eexists. split; [by apply deploy_menu_run |].
  destruct (reacted_frame b (next_id (Menu.world s)) keys (deployed embed s))
    as (Hself & Hclock & Hinbox & _ & Htrace).
  fold b keys. rewrite Hself, Hclock, Hinbox, Htrace, reacted_board.
  split; [done |]. split; [by cbn; rewrite <- app_assoc |]. split; [| done].
  cbn. by rewrite lookup_alter_eq, lookup_insert_eq.
Qed.

(** X15: a reaction of the invoking user whose symbol is bound to nothing
    runs no callback: the loop removes that reaction from its message and
    goes on with the events that follow. *)
Theorem loop_unbound_reaction (s : Menu.Session) (fuel : nat) t r u rest :
  Menu.exit (Menu.self s) = false →
  next_reaction s = Some (t, on_reaction_add r u, rest) →
  dict_get (Menu.reactions (Menu.self s)) (emoji r) = None →
  Menu.loop user_call (S fuel) s
  = Menu.loop user_call fuel
      (awaited (Menu.bot (Menu.self s)) (reaction_remove r u) (received s t rest)).
Proof.
  intros Hexit Hnext Hunbound.
  rewrite (loop_event user_call s fuel t r u rest Hexit Hnext), Hunbound.
  py_step. by erewrite bind_Ok by reflexivity.
Qed.

(** X16: when the callback bound to the received reaction raises, the loop
    ends with that exception in the state the callback left: the reaction
    is not removed and no later event is received. *)
Theorem loop_callback_raises (s s_cb : Menu.Session) (fuel : nat) t r u rest func args x :
  Menu.exit (Menu.self s) = false →
  next_reaction s = Some (t, on_reaction_add r u, rest) →
  dict_get (Menu.reactions (Menu.self s)) (emoji r) = Some (func, args) →
  Menu.call user_call func args (received s t rest) = (Raise x, s_cb) →
  Menu.loop user_call (S fuel) s = (Raise x, s_cb).
Proof.
  intros Hexit Hnext Hbound Hcall.
  rewrite (loop_event user_call s fuel t r u rest Hexit Hnext), Hbound.
  by apply bind_Raise.
Qed.

(** X17: when the callback bound to the received reaction returns, the loop
    removes the reaction from its message, after the callback and in the
    state the callback left, and goes on from there. *)
Theorem loop_callback_returns (s s_cb : Menu.Session) (fuel : nat) t r u rest func args :
  Menu.exit (Menu.self s) = false →
  next_reaction s = Some (t, on_reaction_add r u, rest) →
  dict_get (Menu.reactions (Menu.self s)) (emoji r) = Some (func, args) →
  Menu.call user_call func args (received s t rest) = (Ok (), s_cb) →
  Menu.loop user_call (S fuel) s
  = Menu.loop user_call fuel (awaited (Menu.bot (Menu.self s)) (reaction_remove r u) s_cb).
Proof.
  intros Hexit Hnext Hbound Hcall.
  rewrite (loop_event user_call s fuel t r u rest Hexit Hnext), Hbound.
  rewrite (bind_Ok _ _ _ _ _ Hcall). by erewrite bind_Ok by reflexivity.
Qed.

(** X18: [change_page] never changes the menu object, the clock or the
    events to come; it either raises and changes nothing at all, or returns
    after exactly one call, an edit of the live message to a page of the
    menu; and before the menu is posted, when there is no live message, it
    raises [AttributeError] for every page, known or not. *)
Theorem change_page_effect (s : Menu.Session) (page : Menu.Arg) :
  let r := Menu.change_page page s in
  Menu.self r.2 = Menu.self s ∧
  clock (Menu.world r.2) = clock (Menu.world s) ∧
  inbox (Menu.world r.2) = inbox (Menu.world s) ∧
  (∀ x, r.1 = Raise x → r.2 = s) ∧
  (r.1 = Ok () →
   ∃ live key embed,
     Menu.message (Menu.self s) = Some live ∧ page = Menu.str_arg key ∧
     dict_get (Menu.pages (Menu.self s)) key = Some embed ∧
     trace (Menu.world r.2) = trace (Menu.world s) ++ [message_edit (m_id live) embed]) ∧
  (Menu.message (Menu.self s) = None → r = (Raise AttributeError, s)).
Proof.
  unfold Menu.change_page. rewrite bind_get.
  destruct (Menu.message (Menu.self s)) as [live |]; [| by repeat split].
  destruct page as [| key | o]; try by repeat split.
  unfold subscript. destruct (dict_get _ key) as [embed |] eqn:Hkey; [| by repeat split].
  cbn. do 3 (split; [done |]). split; [done |]. split; [| done].
  intros _. by exists live, key, embed.
Qed.
End Deploy.

(** ** A menu of page changes only *)

Section PagesOnly.
Variable user_call : nat → list Menu.Arg → Py Menu.Session unit.

Lemma call_change_page_cases (args : list Menu.Arg) (s : Menu.Session) :
  (∃ x, Menu.call user_call Menu.Menu_change_page args s = (Raise x, s)) ∨
  (∃ live embed,
     Menu.call user_call Menu.Menu_change_page args s
     = (Ok (), awaited (Menu.bot (Menu.self s)) (message_edit (m_id live) embed) s)).
Proof.
  destruct args as [| [| key | o] [| page [| more ?]]]; cbn [Menu.call];
    try (left; by eexists).
  apply change_page_cases.
Qed.

Lemma loop_pages_only (fuel : nat) (s : Menu.Session) :
  only_pages (Menu.self s) →
  Menu.exit (Menu.self s) = false →
  length (inbox (Menu.world s)) < fuel →
  ∃ x, (Menu.loop user_call fuel s).1 = Raise x.
Proof.
  revert s. induction fuel as [| fuel IH]; intros s Hpages Hexit Hfuel; [lia |].
  destruct (next_reaction s) as [[[t ev] rest] |] eqn:Hnext; cycle 1.
  { rewrite (loop_timeout user_call s fuel Hexit Hnext). by eexists. }
  pose proof Hnext as Hnext'. unfold next_reaction in Hnext'.
  destruct (next_event_Some _ _ _ _ _ _ _ _ Hnext') as (Hchk & _ & _ & skipped & Hinbox).
  destruct ev as [r u | msg]; [| done].
  assert (length rest < fuel) as Hrest.
  { rewrite Hinbox, length_app in Hfuel. cbn in Hfuel. lia. }
  rewrite (loop_event user_call s fuel t r u rest Hexit Hnext).
  destruct (dict_get _ (emoji r)) as [[func args] |] eqn:Hbound.
  - assert (func = Menu.Menu_change_page) as -> by exact (Hpages _ _ Hbound).
    destruct (call_change_page_cases args (received s t rest))
      as [[x Hcall] | (live & embed & Hcall)].
    + rewrite (bind_Raise _ _ _ _ _ Hcall). by eexists.
    + rewrite (bind_Ok _ _ _ _ _ Hcall). erewrite bind_Ok by reflexivity.
      by apply IH.
  - py_step. erewrite bind_Ok by reflexivity. by apply IH.
Qed.

(** X19: a menu whose exit flag is unset and whose bindings are all page
    changes, such as the bindings of [attach_numbers], never returns from
    [deploy_menu]: whatever the events and whatever the client does on a
    timeout, with fuel above the number of events to come the call ends
    with an exception. *)
Theorem deploy_menu_pages_only_raises (fuel : nat) (s : Menu.Session) :
  only_pages (Menu.self s) →
  Menu.exit (Menu.self s) = false →
  length (inbox (Menu.world s)) < fuel →
  ∃ x, (Menu.deploy_menu user_call fuel s).1 = Raise x.
Proof.
  intros Hpages Hexit Hfuel.
  destruct (dict_get (Menu.pages (Menu.self s)) "MAIN") as [embed |] eqn:Hmain; cycle 1.
  { unfold Menu.deploy_menu. rewrite bind_get. unfold subscript. rewrite Hmain.
    by eexists. }
  rewrite (deploy_menu_run user_call s fuel embed Hmain).
  destruct (reacted_frame (Menu.bot (Menu.self s)) (next_id (Menu.world s))
              (dict_keys (Menu.reactions (Menu.self s))) (deployed embed s))
    as (Hself & _ & Hinbox & _).
  apply loop_pages_only.
  - unfold only_pages. rewrite Hself. exact Hpages.
  - by rewrite Hself.
  - by rewrite Hinbox.
Qed.
End PagesOnly.

(** The sample menu without its page MAIN. *)
Lemma deploy_menu_without_MAIN_witness :
  Menu.deploy_menu no_user_call 3
    {| Menu.self := Menu.init [("A", sample_embed "First")] sample_ctx discord_bot;
       Menu.world := sample_world [] |}
  = (Raise KeyError,
     {| Menu.self := Menu.init [("A", sample_embed "First")] sample_ctx discord_bot;
        Menu.world := sample_world [] |}).
Proof.
  exact (deploy_menu_without_MAIN no_user_call
           {| Menu.self := Menu.init [("A", sample_embed "First")] sample_ctx discord_bot;
              Menu.world := sample_world [] |} 3 eq_refl).
Defined.

(** The sample menu is posted as message 2 with its one symbol. *)
Lemma deploy_menu_posts_MAIN_witness :
  ∃ s0, Menu.deploy_menu no_user_call 3 (fresh_menu discord_bot [])
        = Menu.loop no_user_call 3 s0 ∧
        trace (Menu.world s0)
        = [channel_send 3 (sample_embed "Main"); message_add_reaction 2 ":one:"] ∧
        board (Menu.world s0) !! 2
        = Some {| shown_embed := Some (sample_embed "Main");
                  shown_reactions := [(":one:", 0)] |}.
Proof.
  destruct (deploy_menu_posts_MAIN no_user_call (fresh_menu discord_bot []) 3
              (sample_embed "Main") eq_refl) as (s0 & Hrun & _ & Htrace & Hboard & _).
  exists s0. split; [exact Hrun |]. split; [exact Htrace | exact Hboard].
Defined.

(** A reaction with a symbol that is not bound, then nothing. *)
Lemma loop_unbound_reaction_witness :
  Menu.loop no_user_call 2
    (sample_menu discord_bot []
       [(4%N, on_reaction_add {| emoji := ":x:"; r_message := 2 |} 7)])
  = Menu.loop no_user_call 1
      (awaited discord_bot (reaction_remove {| emoji := ":x:"; r_message := 2 |} 7)
         (received (sample_menu discord_bot [] []) 4 [])).
Proof.
  exact (loop_unbound_reaction no_user_call
           (sample_menu discord_bot []
              [(4%N, on_reaction_add {| emoji := ":x:"; r_message := 2 |} 7)])
           1 4%N {| emoji := ":x:"; r_message := 2 |} 7 [] eq_refl eq_refl eq_refl).
Defined.

(** A reaction bound to a function of the caller that raises. *)
Lemma loop_callback_raises_witness :
  Menu.loop no_user_call 2
    (sample_menu discord_bot [(":x:", (Menu.user_function 0, []))]
       [(4%N, on_reaction_add {| emoji := ":x:"; r_message := 2 |} 7)])
  = (Raise TypeError,
     received (sample_menu discord_bot [(":x:", (Menu.user_function 0, []))] []) 4 []).
Proof.
  exact (loop_callback_raises no_user_call
           (sample_menu discord_bot [(":x:", (Menu.user_function 0, []))]
              [(4%N, on_reaction_add {| emoji := ":x:"; r_message := 2 |} 7)])
           _ 1 4%N {| emoji := ":x:"; r_message := 2 |} 7 [] (Menu.user_function 0) []
           TypeError eq_refl eq_refl eq_refl eq_refl).
Defined.

(** A reaction bound to the change to page A. *)
Lemma loop_callback_returns_witness :
  Menu.loop no_user_call 2
    (sample_menu discord_bot [(":one:", page_binding "A")]
       [(4%N, on_reaction_add {| emoji := ":one:"; r_message := 2 |} 7)])
  = Menu.loop no_user_call 1
      (awaited discord_bot (reaction_remove {| emoji := ":one:"; r_message := 2 |} 7)
         (awaited discord_bot (message_edit 2 (sample_embed "First"))
            (received (sample_menu discord_bot [(":one:", page_binding "A")] []) 4 []))).
Proof.
  exact (loop_callback_returns no_user_call
           (sample_menu discord_bot [(":one:", page_binding "A")]
              [(4%N, on_reaction_add {| emoji := ":one:"; r_message := 2 |} 7)])
           _ 1 4%N {| emoji := ":one:"; r_message := 2 |} 7 []
           Menu.Menu_change_page [Menu.the_menu; Menu.str_arg "A"]
           eq_refl eq_refl eq_refl eq_refl).
Defined.

(** On the posted sample menu the page A is shown by one edit of message 2;
    on the menu that is not posted yet the same call raises. *)
Lemma change_page_effect_witness :
  (∃ live key embed,
     Menu.message (Menu.self (sample_menu discord_bot [] [])) = Some live ∧
     Menu.str_arg "A" = Menu.str_arg key ∧
     dict_get sample_menu_pages key = Some embed ∧
     trace (Menu.world (Menu.change_page (Menu.str_arg "A") (sample_menu discord_bot [] [])).2)
     = [message_edit (m_id live) embed]) ∧
  Menu.change_page (Menu.str_arg "A") (fresh_menu discord_bot [])
  = (Raise AttributeError, fresh_menu discord_bot []).
Proof.
  split.
  - destruct (change_page_effect (sample_menu discord_bot [] []) (Menu.str_arg "A"))
      as (_ & _ & _ & _ & Hok & _).
    exact (Hok eq_refl).
  - destruct (change_page_effect (fresh_menu discord_bot []) (Menu.str_arg "A"))
      as (_ & _ & _ & _ & _ & Hnone).
    exact (Hnone eq_refl).
Defined.

(** The menu with one page binding, over a client that returns [None] on a
    timeout and with one reaction to come. *)
Lemma deploy_menu_pages_only_raises_witness :
  ∃ x, (Menu.deploy_menu no_user_call 2
          (fresh_menu none_bot
             [(4%N, on_reaction_add {| emoji := ":one:"; r_message := 2 |} 7)])).1
       = Raise x.
Proof.
  apply (deploy_menu_pages_only_raises no_user_call 2); [| reflexivity | cbn; lia].
  intros e b. cbn. destruct (decide (e = ":one:")); [by intros [= <-] | done].
Defined.

(** ** Pagination, then posting *)

Section Paginate.
Variable PAGES : nat → option Emoji.
Variable user_call : nat → list Menu.Arg → Py Menu.Session unit.

(** X20: on a menu without bindings that has a page MAIN, [attach_numbers]
    over a table of nine distinct symbols followed by [deploy_menu] posts
    MAIN and adds to the live message the symbols of the table, in the order
    of the table, one per page and nine at most, before the loop starts. *)
Theorem attach_numbers_then_deploy (symbols : list Emoji) (s : Menu.Session) (fuel : nat)
    (main : Embed) :
  length symbols = 9 →
  NoDup symbols →
  (∀ k e, symbols !! k = Some e → PAGES (S k) = Some e) →
  Menu.reactions (Menu.self s) = [] →
  dict_get (Menu.pages (Menu.self s)) "MAIN" = Some main →
  ∃ s1 s2,
    Menu.attach_numbers PAGES s = (Ok (), s1) ∧
    Menu.deploy_menu user_call fuel s1 = Menu.loop user_call fuel s2 ∧
    trace (Menu.world s2)
    = trace (Menu.world s)
      ++ channel_send (channel (ctx_message (Menu.ctx (Menu.self s)))) main
         :: (message_add_reaction (next_id (Menu.world s))
               <$> take (length (Menu.pages (Menu.self s))) symbols).
Proof.
  intros Hlen Hnodup Hsym Hempty Hmain.
  pose (keys := dict_keys (Menu.pages (Menu.self s))).
  pose (s1 := with_reactions (bind_pages (Menu.reactions (Menu.self s)) (zip keys symbols)) s).
  assert (dict_keys (Menu.reactions (Menu.self s1)) = take (length keys) symbols) as Hkeys.
  { unfold s1. cbn [with_reactions Menu.self Menu.reactions]. rewrite Hempty.
    rewrite dict_keys_bind_pages, snd_zip_take; [done | |].
    - rewrite snd_zip_take. eapply sublist_NoDup; [done | apply sublist_take].
    - intros e _. apply not_elem_of_nil. }
  exists s1. eexists. split; [by apply (attach_numbers_run PAGES symbols) |].
  split; [by apply (deploy_menu_run user_call s1 fuel main) |].
  destruct (reacted_frame (Menu.bot (Menu.self s1)) (next_id (Menu.world s1))
              (dict_keys (Menu.reactions (Menu.self s1))) (deployed main s1))
    as (_ & _ & _ & _ & ->).
  rewrite Hkeys. unfold keys, dict_keys. rewrite length_fmap. cbn.
  by rewrite <- app_assoc.
Qed.
End Paginate.

(** The eleven pages: MAIN is posted as message 2 and the nine symbols are
    added to it. *)
Lemma attach_numbers_then_deploy_witness :
  ∃ s1 s2,
    Menu.attach_numbers sample_PAGES eleven_menu = (Ok (), s1) ∧
    Menu.deploy_menu no_user_call 1 s1 = Menu.loop no_user_call 1 s2 ∧
    trace (Menu.world s2)
    = channel_send 3 (sample_embed "MAIN") :: (message_add_reaction 2 <$> sample_symbols).
Proof.
  destruct (attach_numbers_then_deploy sample_PAGES no_user_call sample_symbols eleven_menu 1
              (sample_embed "MAIN") eq_refl) as (s1 & s2 & Hbind & Hdeploy & Htrace);
    [by apply (bool_decide_unpack (NoDup sample_symbols)) | by intros k e Hk | done | done |].
  exists s1, s2. split; [exact Hbind |]. split; [exact Hdeploy | exact Htrace].
Defined.
